(** * TrafficEye MMR REST client: a shallow embedding of [example.py]

    The client is thin glue around three CPython libraries ([requests],
    [json], [urllib.parse]) and the operating system.  The embedding keeps
    the client code itself executable and takes everything it calls as
    parameters:

    - [PyLib]    the pure library functions ([unquote], [urlparse],
                 [json.dumps], [json.loads], [bytes.decode]);
    - [Platform] the outside world ([os.path.isfile], reading a file,
                 sending one HTTP request).

    A call runs in a small monad that threads the client instance and the
    world, collects the externally visible events (HTTP exchanges, lines
    printed) and carries either a value or the exception raised. *)

From Stdlib Require Import String Ascii List ZArith Bool Lia.
From Stdlib Require Import Decimal DecimalString DecimalPos DecimalZ.
Import ListNotations.
Local Open Scope string_scope.
Local Open Scope Z_scope.
#[local] Set Warnings "-register-all".

(** ** Python values and exceptions *)

(** A [bytes] object. *)
Definition bytes := list Byte.byte.

(** What [json.loads] may return and what [json.dumps] is applied to.  A
    [dict] keeps insertion order, hence the association list; a float is
    kept as its lexeme. *)
Inductive pyval : Type :=
| PyNone
| PyBool (b : bool)
| PyInt (z : Z)
| PyFloat (lexeme : string)
| PyStr (s : string)
| PyList (items : list pyval)
| PyDict (entries : list (string * pyval)).

(** Exceptions, by class.  [JSONDecodeError] is the subclass of
    [ValueError] raised by [json.loads]; the exceptions the client raises
    itself are plain [ValueError]s, told apart by their message. *)
Inductive exn : Type :=
| ValueError (msg : string)
| JSONDecodeError
| UnicodeDecodeError
| TypeError
| KeyError (key : string)
| OSError
| RequestException.

Definition result (A : Type) : Type := (exn + A)%type.

(** ** Python operators the client applies to a decoded body *)

(** [needle in haystack] on two [str]: substring test. *)
Fixpoint is_prefix (p s : string) : bool :=
  match p, s with
  | EmptyString, _ => true
  | String a p', String b s' => Ascii.eqb a b && is_prefix p' s'
  | String _ _, EmptyString => false
  end.

Fixpoint occurs (needle haystack : string) : bool :=
  is_prefix needle haystack ||
  match haystack with
  | EmptyString => false
  | String _ rest => occurs needle rest
  end.

Fixpoint assoc_lookup {A : Type} (k : string) (d : list (string * A)) : option A :=
  match d with
  | [] => None
  | (k', v) :: rest => if String.eqb k k' then Some v else assoc_lookup k rest
  end.

Definition is_str (k : string) (v : pyval) : bool :=
  match v with
  | PyStr s => String.eqb k s
  | _ => false
  end.

(** [key in container]: membership of a key for a [dict], of an element
    for a [list], substring for a [str]; [TypeError] for the scalars, which
    are not iterable. *)
Definition py_contains (container : pyval) (key : string) : result bool :=
  match container with
  | PyDict d => inr (match assoc_lookup key d with Some _ => true | None => false end)
  | PyList l => inr (existsb (is_str key) l)
  | PyStr s => inr (occurs key s)
  | PyNone | PyBool _ | PyInt _ | PyFloat _ => inl TypeError
  end.

(** [container[key]] with a [str] key: only a [dict] can be indexed so. *)
Definition py_getitem (container : pyval) (key : string) : result pyval :=
  match container with
  | PyDict d => match assoc_lookup key d with
                | Some v => inr v
                | None => inl (KeyError key)
                end
  | _ => inl TypeError
  end.

(** The double quote, and a text between double quotes. *)
Definition dquote : string := String (Ascii.ascii_of_nat 34) EmptyString.
Definition quoted (s : string) : string := dquote ++ s ++ dquote.

(** [str(n)] for an [int]. *)
Definition str_int (n : Z) : string := NilZero.string_of_int (Z.to_int n).

(** ** The libraries and the platform, as interfaces *)

(** The fields of [urlparse]'s result that the client reads. *)
Record ParseResult : Type := {
  scheme : string;
  netloc : string
}.

Record PyLib : Type := {
  unquote : string -> string;
  (** [urlparse] raises [ValueError] on a malformed network location. *)
  urlparse : string -> result ParseResult;
  json_dumps : pyval -> string;
  (** the exception [json.dumps(v)] raises instead of giving [json_dumps v],
      if it raises one (an [int] too long to be written in decimal) *)
  json_dumps_raises : pyval -> option exn;
  json_loads : string -> result pyval;
  (** [b.decode("utf-8")] *)
  decode_utf8 : bytes -> result string;
  (** [str(v)] of a value that is not a [str], an [int], a [bool] or [None] *)
  py_repr : pyval -> string
}.

Inductive http_method : Type := GET | POST.

(** One call of [requests.get] or [requests.post], with the keyword
    arguments the client passes. *)
Record http_request : Type := {
  method : http_method;
  url : string;
  headers : list (string * string);
  data : list (string * string);
  files : list (string * (string * bytes));
  timeout : Z
}.

(** The attributes of [requests.Response] that the client reads. *)
Record http_response : Type := {
  status_code : Z;
  reason : string;
  content : bytes;
  text : string
}.

Record Platform (World : Type) : Type := {
  os_path_isfile : World -> string -> bool;
  (** [with open(p, "rb") as f: f.read()] *)
  read_binary : World -> string -> result bytes;
  (** one blocking exchange; the transport may raise instead of answering *)
  http_send : World -> http_request -> World * result http_response
}.
Arguments os_path_isfile {World}.
Arguments read_binary {World}.
Arguments http_send {World}.

(** What a call does that can be seen from outside. *)
Inductive event : Type :=
| EvHttp (req : http_request) (answer : result http_response)
| EvPrint (line : string).

(** ** The client *)

(** The instance attributes set by [__init__]. *)
Record MmrApiClient : Type := {
  server_url : string
}.

Section Run.
Context {World : Type}.

(** The instance the methods are called on, and the world around it. *)
Record state : Type := {
  self : MmrApiClient;
  world : World
}.

Record outcome (A : Type) : Type := {
  final : state;
  events : list event;
  value : result A
}.

Definition M (A : Type) : Type := state -> outcome A.

Definition ret {A} (a : A) : M A :=
  fun st => {| final := st; events := []; value := inr a |}.

Definition raise {A} (e : exn) : M A :=
  fun st => {| final := st; events := []; value := inl e |}.

Definition bind {A B} (m : M A) (k : A -> M B) : M B :=
  fun st =>
    let o := m st in
    match value _ o with
    | inl e => {| final := final _ o; events := events _ o; value := inl e |}
    | inr a =>
        let o' := k a (final _ o) in
        {| final := final _ o'; events := events _ o ++ events _ o';
           value := value _ o' |}
    end.

(** A pure library call that may raise. *)
Definition lift {A} (r : result A) : M A :=
  match r with
  | inl e => raise e
  | inr a => ret a
  end.
End Run.

Arguments state World : clear implicits.
Arguments outcome World A : clear implicits.
Arguments M World A : clear implicits.
Arguments final {World A}.
Arguments events {World A}.
Arguments value {World A}.

Notation "x <- m ;; k" := (bind m (fun x => k))
  (at level 61, m at next level, right associativity).
Notation "m ;;; k" := (bind m (fun _ => k))
  (at level 61, right associativity).

Section Client.
Context {World : Type}.
Variable lib : PyLib.
Variable os : Platform World.

#[local] Abbreviation M := (M World).

(** [self.server_url] *)
Definition get_server_url : M string :=
  fun st => {| final := st; events := []; value := inr (server_url (self st)) |}.

(** [self.server_url = v] *)
Definition set_server_url (v : string) : M unit :=
  fun st => {| final := {| self := {| server_url := v |}; world := world st |};
               events := []; value := inr tt |}.

Definition isfile (path : string) : M bool :=
  fun st => {| final := st; events := [];
               value := inr (os_path_isfile os (world st) path) |}.

Definition open_read (path : string) : M bytes :=
  fun st => {| final := st; events := [];
               value := read_binary os (world st) path |}.

Definition print (line : string) : M unit :=
  fun st => {| final := st; events := [EvPrint line]; value := inr tt |}.

Definition request (req : http_request) : M http_response :=
  fun st =>
    let '(w, answer) := http_send os (world st) req in
    {| final := {| self := self st; world := w |};
       events := [EvHttp req answer];
       value := answer |}.

(** [requests.get(url, headers=headers, timeout=60)] *)
Definition requests_get (u : string) (hdrs : list (string * string)) : M http_response :=
  request {| method := GET; url := u; headers := hdrs;
             data := []; files := []; timeout := 60 |}.

(** [requests.post(url, data=payload, files=files, headers=headers, timeout=60)] *)
Definition requests_post (u : string) (payload : list (string * string))
    (fs : list (string * (string * bytes))) (hdrs : list (string * string))
  : M http_response :=
  request {| method := POST; url := u; headers := hdrs;
             data := payload; files := fs; timeout := 60 |}.

(** [f"{v}"] of a decoded JSON value. *)
Definition format_value (v : pyval) : string :=
  match v with
  | PyStr s => s
  | PyNone => "None"
  | PyBool true => "True"
  | PyBool false => "False"
  | PyInt z => str_int z
  | _ => py_repr lib v
  end.

Definition truthy (s : string) : bool :=
  match s with
  | EmptyString => false
  | _ => true
  end.

(** [is_valid_url], lines 12-17. *)
Definition is_valid_url (input_str : string) : result bool :=
  let decoded_url := unquote lib input_str in
  match urlparse lib decoded_url with
  | inl e => inl e
  | inr parsed_url =>
      inr (truthy (scheme parsed_url) && truthy (netloc parsed_url))
  end.

(** [MmrApiClient.__init__], lines 22-27. *)
Definition init (url_ : string) : M unit := set_server_url url_.

(** [MmrApiClient.info], lines 29-44. *)
Definition info (api_key : string) : M pyval :=
  let hdrs := [("apikey", api_key)] in
  base <- get_server_url ;;
  r <- requests_get (base ++ "info") hdrs ;;
  if negb (status_code r =? 200) then
    print (str_int (status_code r) ++ " " ++ reason r ++ " - " ++ text r) ;;;
    raise (ValueError ("Server returned error code " ++ str_int (status_code r)))
  else
    body <- lift (decode_utf8 lib (content r)) ;;
    lift (json_loads lib body).

(** The arguments of [recognition] after the defaults have been bound.
    [Optional[bool]] and [Optional[int]] admit [None]. *)
Definition opt_bool (b : option bool) : pyval :=
  match b with Some b => PyBool b | None => PyNone end.
Definition opt_int (n : option Z) : pyval :=
  match n with Some n => PyInt n | None => PyNone end.

(** The dictionary built at lines 86-91. *)
Definition request_dict (save_image save_plate_text : option bool)
    (tasks : list string) (ocr_module_id : option Z) : pyval :=
  PyDict [ ("saveImage", opt_bool save_image);
           ("savePlateText", opt_bool save_plate_text);
           ("tasks", PyList (map PyStr tasks));
           ("ocrModuleId", opt_int ocr_module_id) ].

Definition invalid_input_error : exn :=
  ValueError "Input is neither a valid file path nor a URL.".
Definition image_read_error : exn :=
  ValueError "Failed to read image.".
(** The error of lines 98-104: status code and detail message. *)
Definition server_error (status : Z) (detail : string) : exn :=
  ValueError ("Server returned error code " ++ str_int status ++ " : " ++ detail).

(** [json.dumps(v)], with its error path. *)
Definition json_dumps_result (v : pyval) : result string :=
  match json_dumps_raises lib v with
  | Some e => inl e
  | None => inr (json_dumps lib v)
  end.

(** [MmrApiClient.recognition], lines 46-107. *)
Definition recognition (api_key image_path : string)
    (save_image save_plate_text : option bool)
    (tasks : list string) (ocr_module_id : option Z) : M pyval :=
  file_buffer <-
    (is_file <- isfile image_path ;;
     if is_file then
       b <- open_read image_path ;;
       ret (Some b)
     else
       valid <- lift (is_valid_url image_path) ;;
       if valid then
         response <- requests_get image_path [] ;;
         if status_code response =? 200
         then ret (Some (content response))
         else ret None
       else raise invalid_input_error) ;;
  match file_buffer with
  | None => raise image_read_error
  | Some file_buffer =>
      let fs := [("file", (image_path, file_buffer))] in
      let hdrs := [("apiKey", api_key)] in
      let req := request_dict save_image save_plate_text tasks ocr_module_id in
      encoded <- lift (json_dumps_result req) ;;
      let payload := [("request", encoded)] in
      base <- get_server_url ;;
      r <- requests_post (base ++ "recognition") payload fs hdrs ;;
      if negb (status_code r =? 200) then
        error_message <-
          (if truthy (text r) then
             returned_json <- lift (json_loads lib (text r)) ;;
             has <- lift (py_contains returned_json "errorMessage") ;;
             if has
             then lift (py_getitem returned_json "errorMessage")
             else ret (PyStr (reason r))
           else ret (PyStr (reason r))) ;;
        raise (ValueError ("Server returned error code " ++ str_int (status_code r)
                           ++ " : " ++ format_value error_message))
      else
        body <- lift (decode_utf8 lib (content r)) ;;
        lift (json_loads lib body)
  end.

(** *** Calling [recognition] with keyword arguments left out

    The [def] line (46-51) binds a default to every optional parameter
    that the call does not pass.  [tasks] defaults to one shared list
    object; no statement of [recognition] writes to it, so it is a
    constant here. *)
Record kwargs : Type := {
  kw_save_image : option (option bool);
  kw_save_plate_text : option (option bool);
  kw_tasks : option (list string);
  kw_ocr_module_id : option (option Z)
}.

Definition default_save_image : option bool := Some false.
Definition default_save_plate_text : option bool := Some true.
Definition default_tasks : list string := ["DETECTION"; "OCR"; "MMR"].
Definition default_ocr_module_id : option Z := Some 801.

Definition passed {A} (arg : option A) (default : A) : A :=
  match arg with Some a => a | None => default end.

Definition call_recognition (api_key image_path : string) (kw : kwargs) : M pyval :=
  recognition api_key image_path
    (passed (kw_save_image kw) default_save_image)
    (passed (kw_save_plate_text kw) default_save_plate_text)
    (passed (kw_tasks kw) default_tasks)
    (passed (kw_ocr_module_id kw) default_ocr_module_id).

(** *** The requests and the results, part by part *)

(** The image GET of line 70. *)
Definition image_get (image_path : string) : http_request :=
  {| method := GET; url := image_path; headers := [];
     data := []; files := []; timeout := 60 |}.

(** The recognition POST of line 96. *)
Definition recognition_post (base api_key image_path : string)
    (save_image save_plate_text : option bool)
    (tasks : list string) (ocr_module_id : option Z)
    (file_buffer : bytes) : http_request :=
  {| method := POST; url := base ++ "recognition";
     headers := [("apiKey", api_key)];
     data := [("request",
               json_dumps lib (request_dict save_image save_plate_text tasks ocr_module_id))];
     files := [("file", (image_path, file_buffer))];
     timeout := 60 |}.

(** Lines 99-103: the detail of the error, from the body of [r]. *)
Definition error_detail (r : http_response) : result pyval :=
  if truthy (text r) then
    match json_loads lib (text r) with
    | inl e => inl e
    | inr returned_json =>
        match py_contains returned_json "errorMessage" with
        | inl e => inl e
        | inr true => py_getitem returned_json "errorMessage"
        | inr false => inr (PyStr (reason r))
        end
    end
  else inr (PyStr (reason r)).

(** Lines 98-107: what [recognition] makes of the answer [r] to its POST. *)
Definition recognition_result (r : http_response) : result pyval :=
  if negb (status_code r =? 200) then
    match error_detail r with
    | inl e => inl e
    | inr m => inl (server_error (status_code r) (format_value m))
    end
  else
    match decode_utf8 lib (content r) with
    | inl e => inl e
    | inr body => json_loads lib body
    end.

(** Lines 80-107, entered in state [st] with the image in [file_buffer],
    after the events [before]: nothing is sent when [json.dumps] raises
    at line 94. *)
Definition submit (api_key image_path : string)
    (save_image save_plate_text : option bool)
    (tasks : list string) (ocr_module_id : option Z)
    (file_buffer : bytes) (before : list event) (st : state World)
  : outcome World pyval :=
  let req := recognition_post (server_url (self st)) api_key image_path
               save_image save_plate_text tasks ocr_module_id file_buffer in
  match json_dumps_raises lib
          (request_dict save_image save_plate_text tasks ocr_module_id) with
  | Some e => {| final := st; events := before; value := inl e |}
  | None =>
      {| final := {| self := self st; world := fst (http_send os (world st) req) |};
         events := before ++ [EvHttp req (snd (http_send os (world st) req))];
         value := match snd (http_send os (world st) req) with
                  | inl e => inl e
                  | inr r => recognition_result r
                  end |}
  end.

Definition after_get (image_path : string) (st : state World) : state World :=
  {| self := self st; world := fst (http_send os (world st) (image_get image_path)) |}.

(** The GET of line 37. *)
Definition info_get (base api_key : string) : http_request :=
  {| method := GET; url := base ++ "info"; headers := [("apikey", api_key)];
     data := []; files := []; timeout := 60 |}.

(** Lines 39-44: what [info] prints and returns on the answer [r]. *)
Definition info_line (r : http_response) : string :=
  str_int (status_code r) ++ " " ++ reason r ++ " - " ++ text r.

Definition info_error (status : Z) : exn :=
  ValueError ("Server returned error code " ++ str_int status).

Definition info_result (r : http_response) : result pyval :=
  if negb (status_code r =? 200) then inl (info_error (status_code r))
  else
    match decode_utf8 lib (content r) with
    | inl e => inl e
    | inr body => json_loads lib body
    end.

(** The body [{"errorMessage":"bad key"}]. *)
Definition bad_key_body : string :=
  "{" ++ quoted "errorMessage" ++ ":" ++ quoted "bad key" ++ "}".

(** The values sent under [tasks] and [ocrModuleId]. *)
Definition is_nonempty_list (v : pyval) : bool :=
  match v with
  | PyList (_ :: _) => true
  | _ => false
  end.

Definition is_positive_int (v : pyval) : bool :=
  match v with
  | PyInt n => 0 <? n
  | _ => false
  end.

(** *** The script, lines 109-123

    The three variables set up at lines 111-113 are parameters; the script
    assigns them [str] values. *)

(** [s == Path(p)] for a [str] [s]: a [str] and a [Path] never compare
    equal. *)
Definition str_equals_path (s p : string) : bool := false.

Definition setup_error : exn :=
  ValueError "You must set your API key and image path prior to running this script.".

Definition main (IMAGE_PATH NET_ADDRESS API_KEY : string) : M unit :=
  if str_equals_path IMAGE_PATH "" || String.eqb API_KEY "" then
    raise setup_error
  else
    init NET_ADDRESS ;;;
    info_ <- info API_KEY ;;
    print (format_value info_) ;;;
    print "Recognition:" ;;;
    api_response <- recognition API_KEY IMAGE_PATH default_save_image
                      default_save_plate_text default_tasks default_ocr_module_id ;;
    print (format_value api_response).

End Client.

(** ** The decoded string and the original one *)

(** The library with another function in the place of [unquote]. *)
Definition with_unquote (lib : PyLib) (decode : string -> string) : PyLib :=
  {| unquote := decode;
     urlparse := urlparse lib;
     json_dumps := json_dumps lib;
     json_dumps_raises := json_dumps_raises lib;
     json_loads := json_loads lib;
     decode_utf8 := decode_utf8 lib;
     py_repr := py_repr lib |}.

(** The library with other functions in the place of [unquote] and
    [urlparse]. *)
Definition with_url_functions (lib : PyLib) (decode : string -> string)
    (parse : string -> result ParseResult) : PyLib :=
  {| unquote := decode;
     urlparse := parse;
     json_dumps := json_dumps lib;
     json_dumps_raises := json_dumps_raises lib;
     json_loads := json_loads lib;
     decode_utf8 := decode_utf8 lib;
     py_repr := py_repr lib |}.

(** ** Reference library

    Executable models of the CPython functions behind [PyLib], on ASCII
    text, to run the client on concrete inputs.  The facts proved about
    the client hold for every library; only the runs on concrete inputs
    use this one. *)
Module Ref.

Local Open Scope nat_scope.

Definition code (c : ascii) : nat := nat_of_ascii c.
Definition chr (n : nat) : ascii := ascii_of_nat n.
Definition dq : ascii := Eval cbv in chr 34.

Definition is_digit (c : ascii) : bool := (48 <=? code c) && (code c <=? 57).

Definition hex_value (c : ascii) : option nat :=
  let n := code c in
  if (48 <=? n) && (n <=? 57) then Some (n - 48)
  else if (97 <=? n) && (n <=? 102) then Some (n - 87)
  else if (65 <=? n) && (n <=? 70) then Some (n - 55)
  else None.

Definition hex_digit (n : nat) : ascii :=
  if n <? 10 then chr (48 + n) else chr (87 + n).

Fixpoint join (sep : string) (parts : list string) : string :=
  match parts with
  | [] => ""
  | [p] => p
  | p :: rest => p ++ sep ++ join sep rest
  end.

(** *** [json.dumps] with its default arguments *)

(** One character of a string, as [ensure_ascii] writes it. *)
Definition escape_char (c : ascii) : string :=
  let n := code c in
  if n =? 34 then String "\" (String dq "")
  else if n =? 92 then "\\"
  else if n =? 10 then "\n"
  else if n =? 13 then "\r"
  else if n =? 9 then "\t"
  else if n =? 8 then "\b"
  else if n =? 12 then "\f"
  else if (n <? 32) || (126 <? n)
       then "\u00" ++ String (hex_digit (n / 16)) (String (hex_digit (n mod 16)) "")
  else String c "".

Fixpoint escape (s : string) : string :=
  match s with
  | EmptyString => ""
  | String c rest => escape_char c ++ escape rest
  end.

Definition encode_str (s : string) : string := String dq (escape s ++ String dq "").

Fixpoint dumps (v : pyval) : string :=
  match v with
  | PyNone => "null"
  | PyBool true => "true"
  | PyBool false => "false"
  | PyInt z => str_int z
  | PyFloat lexeme => lexeme
  | PyStr s => encode_str s
  | PyList items => "[" ++ join ", " (map dumps items) ++ "]"
  | PyDict entries =>
      "{" ++ join ", " (map (fun kv => encode_str (fst kv) ++ ": " ++ dumps (snd kv))
                            entries) ++ "}"
  end.

(** [json.dumps] refuses an [int] of more than 4300 decimal digits, as
    CPython 3.11 does by default, wherever it stands in the value. *)
Definition int_max_str_digits : Z := 4300.

(** The least number with one digit more. *)
Definition first_too_long : Z := Eval vm_compute in (10 ^ int_max_str_digits)%Z.

Definition int_too_long (z : Z) : bool := (first_too_long <=? Z.abs z)%Z.

Fixpoint has_long_int (v : pyval) : bool :=
  match v with
  | PyInt z => int_too_long z
  | PyList items => existsb has_long_int items
  | PyDict entries => existsb (fun kv => has_long_int (snd kv)) entries
  | PyNone | PyBool _ | PyFloat _ | PyStr _ => false
  end.

Definition dumps_error (v : pyval) : option exn :=
  if has_long_int v
  then Some (ValueError "Exceeds the limit (4300 digits) for integer string conversion; use sys.set_int_max_str_digits() to increase the limit")
  else None.

(** *** [json.loads] *)

Definition is_ws (c : ascii) : bool :=
  let n := code c in (n =? 32) || (n =? 9) || (n =? 10) || (n =? 13).

Fixpoint skip_ws (s : string) : string :=
  match s with
  | String c rest => if is_ws c then skip_ws rest else s
  | EmptyString => s
  end.

Fixpoint strip_prefix (p s : string) : option string :=
  match p, s with
  | EmptyString, _ => Some s
  | String a p', String b s' => if Ascii.eqb a b then strip_prefix p' s' else None
  | String _ _, EmptyString => None
  end.

Fixpoint rev_string (acc : list ascii) (tail : string) : string :=
  match acc with
  | [] => tail
  | c :: rest => rev_string rest (String c tail)
  end.

(** The character a backslash escape stands for. *)
Definition unescape (c : ascii) : option ascii :=
  let n := code c in
  if (n =? 34) || (n =? 92) || (n =? 47) then Some c
  else if n =? 98 then Some (chr 8)
  else if n =? 102 then Some (chr 12)
  else if n =? 110 then Some (chr 10)
  else if n =? 114 then Some (chr 13)
  else if n =? 116 then Some (chr 9)
  else None.

(** The rest of a string literal, after its opening quote.  A [\u] escape
    above [U+00FF] has no counterpart in this model of text and is
    refused. *)
Fixpoint scan_string (fuel : nat) (s : string) (acc : list ascii)
  : option (string * string) :=
  match fuel with
  | O => None
  | S fuel =>
      match s with
      | EmptyString => None
      | String c rest =>
          if code c =? 34 then Some (rev_string acc "", rest)
          else if code c =? 92 then
            match rest with
            | String "u" (String a (String b (String c1 (String d rest')))) =>
                match hex_value a, hex_value b, hex_value c1, hex_value d with
                | Some 0, Some 0, Some h, Some l =>
                    scan_string fuel rest' (chr (16 * h + l) :: acc)
                | _, _, _, _ => None
                end
            | String e rest' =>
                match unescape e with
                | Some x => scan_string fuel rest' (x :: acc)
                | None => None
                end
            | EmptyString => None
            end
          else if code c <? 32 then None
          else scan_string fuel rest (c :: acc)
      end
  end.

Fixpoint span_digits (s : string) (acc : list ascii) : list ascii * string :=
  match s with
  | String c rest => if is_digit c then span_digits rest (c :: acc) else (acc, s)
  | EmptyString => (acc, s)
  end.

Fixpoint digits_value (ds : list ascii) : Z :=
  match ds with
  | [] => 0%Z
  | d :: more => (Z.of_nat (code d - 48) + 10 * digits_value more)%Z
  end.

(** A number: an optional minus sign, then [0] or a digit string that does
    not start with [0], then an optional fraction and an optional exponent.
    It is an [int] without fraction and exponent, a [float] with one of
    them. *)
Definition scan_number (s : string) : option (pyval * string) :=
  let '(neg, s1) := match s with
                    | String "-" r => (true, r)
                    | _ => (false, s)
                    end in
  let int_part :=
    match s1 with
    | String "0" r => Some (["0"%char], r)
    | String c _ => if is_digit c then Some (span_digits s1 []) else None
    | EmptyString => None
    end in
  match int_part with
  | None => None
  | Some (ds, s2) =>
      let '(frac, s3) :=
        match s2 with
        | String "." r =>
            match span_digits r [] with
            | ([], _) => ("", s2)
            | (fs, r') => (String "." (rev_string fs ""), r')
            end
        | _ => ("", s2)
        end in
      let '(expo, s4) :=
        match s3 with
        | String e r =>
            if (code e =? 101) || (code e =? 69) then
              let '(sign, r1) := match r with
                                 | String "+" r1 => ("+", r1)
                                 | String "-" r1 => ("-", r1)
                                 | _ => ("", r)
                                 end in
              match span_digits r1 [] with
              | ([], _) => ("", s3)
              | (es, r') => (String e (sign ++ rev_string es ""), r')
              end
            else ("", s3)
        | EmptyString => ("", s3)
        end in
      match frac, expo with
      | EmptyString, EmptyString =>
          Some (PyInt (if neg then - digits_value ds else digits_value ds)%Z, s4)
      | _, _ =>
          Some (PyFloat ((if neg then "-" else "") ++ rev_string ds "" ++ frac ++ expo), s4)
      end
  end.

(** A later value of a repeated key replaces the earlier one, in place. *)
Fixpoint dict_set (k : string) (v : pyval) (d : list (string * pyval))
  : list (string * pyval) :=
  match d with
  | [] => [(k, v)]
  | (k', v') :: rest =>
      if String.eqb k k' then (k, v) :: rest else (k', v') :: dict_set k v rest
  end.

Definition dict_of_pairs (pairs : list (string * pyval)) : list (string * pyval) :=
  fold_left (fun d kv => dict_set (fst kv) (snd kv) d) pairs [].

Section Containers.
Variable scan_value : string -> option (pyval * string).

(** After [[]: values separated by commas, up to []]. *)
Fixpoint scan_elements (fuel : nat) (s : string) (acc : list pyval)
  : option (pyval * string) :=
  match fuel with
  | O => None
  | S fuel =>
      match scan_value s with
      | None => None
      | Some (v, rest) =>
          match skip_ws rest with
          | String "]" rest' => Some (PyList (List.rev (v :: acc)), rest')
          | String "," rest' => scan_elements fuel (skip_ws rest') (v :: acc)
          | _ => None
          end
      end
  end.

(** After [{]: [key : value] pairs separated by commas, up to [}]. *)
Fixpoint scan_members (fuel : nat) (s : string) (acc : list (string * pyval))
  : option (pyval * string) :=
  match fuel with
  | O => None
  | S fuel =>
      match s with
      | String q rest =>
          if code q =? 34 then
            match scan_string (String.length rest) rest [] with
            | None => None
            | Some (key, rest1) =>
                match skip_ws rest1 with
                | String ":" rest2 =>
                    match scan_value (skip_ws rest2) with
                    | None => None
                    | Some (v, rest3) =>
                        match skip_ws rest3 with
                        | String "}" rest4 =>
                            Some (PyDict (dict_of_pairs (List.rev ((key, v) :: acc))), rest4)
                        | String "," rest4 =>
                            scan_members fuel (skip_ws rest4) ((key, v) :: acc)
                        | _ => None
                        end
                    end
                | _ => None
                end
            end
          else None
      | EmptyString => None
      end
  end.
End Containers.

Definition literals : list (string * pyval) :=
  [ ("null", PyNone); ("true", PyBool true); ("false", PyBool false);
    ("NaN", PyFloat "nan"); ("Infinity", PyFloat "inf");
    ("-Infinity", PyFloat "-inf") ].

Fixpoint scan_literal (table : list (string * pyval)) (s : string)
  : option (pyval * string) :=
  match table with
  | [] => None
  | (word, v) :: more =>
      match strip_prefix word s with
      | Some rest => Some (v, rest)
      | None => scan_literal more s
      end
  end.

(** One value at the head of [s]; [fuel] bounds the nesting. *)
Fixpoint scan_value (fuel : nat) (s : string) : option (pyval * string) :=
  match fuel with
  | O => None
  | S fuel =>
      match s with
      | EmptyString => None
      | String c rest =>
          if code c =? 34 then
            match scan_string (String.length rest) rest [] with
            | Some (str, rest') => Some (PyStr str, rest')
            | None => None
            end
          else if code c =? 123 then
            match skip_ws rest with
            | String "}" rest' => Some (PyDict [], rest')
            | rest' => scan_members (scan_value fuel) (S (String.length rest')) rest' []
            end
          else if code c =? 91 then
            match skip_ws rest with
            | String "]" rest' => Some (PyList [], rest')
            | rest' => scan_elements (scan_value fuel) (S (String.length rest')) rest' []
            end
          else
            match scan_literal literals s with
            | Some found => Some found
            | None => scan_number s
            end
      end
  end.

Definition loads (s : string) : result pyval :=
  match scan_value (S (String.length s)) (skip_ws s) with
  | Some (v, rest) =>
      match skip_ws rest with
      | EmptyString => inr v
      | _ => inl JSONDecodeError
      end
  | None => inl JSONDecodeError
  end.

(** *** [urllib.parse.unquote] *)

(** [%XX] with two hexadecimal digits becomes the character of that code.
    Escapes of bytes above [0x7F] are left in place: what they decode to
    lies outside ASCII. *)
Fixpoint unquote (s : string) : string :=
  match s with
  | EmptyString => ""
  | String c tail =>
      match tail with
      | String h (String l rest) =>
          match hex_value h, hex_value l with
          | Some a, Some b =>
              if (code c =? 37) && (16 * a + b <? 128)
              then String (chr (16 * a + b)) (unquote rest)
              else String c (unquote tail)
          | _, _ => String c (unquote tail)
          end
      | _ => String c (unquote tail)
      end
  end.

(** *** [urllib.parse.urlparse], scheme and network location

    As [urlsplit] of CPython 3.12 finds them in ASCII text.  The address
    inside a bracketed host is not checked. *)

Definition is_letter (c : ascii) : bool :=
  let n := code c in
  ((97 <=? n) && (n <=? 122)) || ((65 <=? n) && (n <=? 90)).

Definition is_scheme_char (c : ascii) : bool :=
  let n := code c in
  is_letter c || is_digit c || (n =? 43) || (n =? 45) || (n =? 46).

Definition lower (c : ascii) : ascii :=
  let n := code c in
  if (65 <=? n) && (n <=? 90) then chr (n + 32) else c.

Fixpoint string_map (f : ascii -> ascii) (s : string) : string :=
  match s with
  | EmptyString => ""
  | String c rest => String (f c) (string_map f rest)
  end.

Fixpoint string_forall (f : ascii -> bool) (s : string) : bool :=
  match s with
  | EmptyString => true
  | String c rest => f c && string_forall f rest
  end.

Fixpoint contains_char (n : nat) (s : string) : bool :=
  match s with
  | EmptyString => false
  | String c rest => (code c =? n) || contains_char n rest
  end.

(** Leading control characters and spaces are stripped first. *)
Fixpoint lstrip (s : string) : string :=
  match s with
  | String c rest => if code c <=? 32 then lstrip rest else s
  | EmptyString => s
  end.

(** Tabs and line ends are dropped wherever they stand. *)
Fixpoint remove_unsafe (s : string) : string :=
  match s with
  | EmptyString => ""
  | String c rest =>
      let n := code c in
      if (n =? 9) || (n =? 10) || (n =? 13) then remove_unsafe rest
      else String c (remove_unsafe rest)
  end.

(** [s] cut at its first colon. *)
Fixpoint split_colon (s : string) : option (string * string) :=
  match s with
  | EmptyString => None
  | String c rest =>
      if code c =? 58 then Some ("", rest)
      else match split_colon rest with
           | Some (before, after) => Some (String c before, after)
           | None => None
           end
  end.

(** [s] up to its first [/], [?] or [#]. *)
Fixpoint until_delimiter (s : string) : string :=
  match s with
  | EmptyString => ""
  | String c rest =>
      let n := code c in
      if (n =? 47) || (n =? 63) || (n =? 35) then ""
      else String c (until_delimiter rest)
  end.

Definition urlparse (u : string) : result ParseResult :=
  let u := remove_unsafe (lstrip u) in
  let '(sch, rest) :=
    match split_colon u with
    | Some (String c before, after) =>
        if is_letter c && string_forall is_scheme_char before
        then (string_map lower (String c before), after)
        else ("", u)
    | _ => ("", u)
    end in
  match rest with
  | String "/" (String "/" after) =>
      let loc := until_delimiter after in
      if xorb (contains_char 91 loc) (contains_char 93 loc)
      then inl (ValueError "Invalid IPv6 URL")
      else inr {| scheme := sch; netloc := loc |}
  | _ => inr {| scheme := sch; netloc := "" |}
  end.

(** *** [bytes.decode] and [str] of a value *)

(** ASCII bytes decode to themselves. *)
Fixpoint decode (b : bytes) : result string :=
  match b with
  | [] => inr ""
  | x :: rest =>
      if code (ascii_of_byte x) <? 128 then
        match decode rest with
        | inr s => inr (String (ascii_of_byte x) s)
        | inl e => inl e
        end
      else inl UnicodeDecodeError
  end.

(** [repr], for strings without quotes, backslashes and control
    characters. *)
Fixpoint repr (v : pyval) : string :=
  match v with
  | PyNone => "None"
  | PyBool true => "True"
  | PyBool false => "False"
  | PyInt z => str_int z
  | PyFloat lexeme => lexeme
  | PyStr s => "'" ++ s ++ "'"
  | PyList items => "[" ++ join ", " (map repr items) ++ "]"
  | PyDict entries =>
      "{" ++ join ", " (map (fun kv => "'" ++ fst kv ++ "': " ++ repr (snd kv)) entries)
      ++ "}"
  end.

End Ref.

Definition reference : PyLib :=
  {| unquote := Ref.unquote;
     urlparse := Ref.urlparse;
     json_dumps := Ref.dumps;
     json_dumps_raises := Ref.dumps_error;
     json_loads := Ref.loads;
     decode_utf8 := Ref.decode;
     py_repr := Ref.repr |}.

(** ** A simulated platform

    A file system given as a table and a server given as a function of the
    request, to run the client on concrete inputs. *)

Record sim : Type := {
  sim_files : list (string * result bytes);
  sim_server : http_request -> result http_response
}.

Definition simulated : Platform sim :=
  {| os_path_isfile := fun w p =>
       match assoc_lookup p (sim_files w) with
       | Some _ => true
       | None => false
       end;
     read_binary := fun w p =>
       match assoc_lookup p (sim_files w) with
       | Some r => r
       | None => inl OSError
       end;
     http_send := fun w req => (w, sim_server w req) |}.

Definition response (status : Z) (phrase body : string) : http_response :=
  {| status_code := status; reason := phrase;
     content := list_byte_of_string body; text := body |}.

(** A server that answers by the method of the request. *)
Definition by_method (on_get on_post : http_response) (req : http_request)
  : result http_response :=
  match method req with
  | GET => inr on_get
  | POST => inr on_post
  end.

Definition car_jpg : bytes := [Byte.xff; Byte.xd8; Byte.xff; Byte.xe0].
Definition picture : http_response :=
  {| status_code := 200; reason := "OK"; content := car_jpg; text := "" |}.
Definition status_ok_body : string :=
  "{" ++ quoted "status" ++ ":" ++ quoted "ok" ++ "}".

(** The file [car.jpg] on disk, and a server with the given answers. *)
Definition with_file (on_get on_post : http_response) : sim :=
  {| sim_files := [("car.jpg", inr car_jpg)];
     sim_server := by_method on_get on_post |}.

(** No file at all. *)
Definition without_file (on_get on_post : http_response) : sim :=
  {| sim_files := [];
     sim_server := by_method on_get on_post |}.

(** The client made by [MmrApiClient("https://trafficeye.ai/")]. *)
Definition client_in (w : sim) : state sim :=
  {| self := {| server_url := "https://trafficeye.ai/" |}; world := w |}.

Definition no_kwargs : kwargs :=
  {| kw_save_image := None; kw_save_plate_text := None;
     kw_tasks := None; kw_ocr_module_id := None |}.

(** The POST of [client.recognition("key", "car.jpg")]. *)
Definition default_post : http_request :=
  recognition_post reference "https://trafficeye.ai/" "key" "car.jpg"
    default_save_image default_save_plate_text default_tasks
    default_ocr_module_id car_jpg.

(** A gateway answers the POST with 502 and an HTML page. *)
Definition bad_gateway : http_response :=
  response 502 "Bad Gateway" "<html>Bad Gateway</html>".

(** Two answers with one status and two reason phrases. *)
Definition not_found : http_response := response 404 "Not Found" "".
Definition no_such_page : http_response := response 404 "No Such Page" "".

(** The server refuses the key. *)
Definition unauthorized : http_response := response 401 "Unauthorized" bad_key_body.

(** The POST of [client.recognition("key", "car.jpg", tasks=[], ocr_module_id=0)]. *)
Definition unchecked_post : http_request :=
  recognition_post reference "https://trafficeye.ai/" "key" "car.jpg"
    default_save_image default_save_plate_text [] (Some 0) car_jpg.

(** A URL with an escape in it: the GET asks for it as written. *)
Definition escaped_url : string := "https://example.com/my%20car.jpg".

(** An OCR module id of 4301 digits, one more than [json.dumps] writes. *)
Definition huge_module_id : Z := Eval vm_compute in 10 ^ 4300.

(** A world that changes: the server answers with the number of requests
    it has seen so far. *)
Definition counting : Platform nat :=
  {| os_path_isfile := fun _ _ => false;
     read_binary := fun _ _ => inl OSError;
     http_send := fun n _ => (S n, inr (response 200 "OK" (str_int (Z.of_nat n)))) |}.

(** ** Facts about the client, for every library and platform *)

Section Facts.
Context {World : Type}.
Variable lib : PyLib.
Variable os : Platform World.

#[local] Abbreviation is_valid_url := (is_valid_url lib).
#[local] Abbreviation info := (info lib os).
#[local] Abbreviation recognition := (recognition lib os).
#[local] Abbreviation call_recognition := (call_recognition lib os).
#[local] Abbreviation recognition_post := (recognition_post lib).
#[local] Abbreviation error_detail := (error_detail lib).
#[local] Abbreviation recognition_result := (recognition_result lib).
#[local] Abbreviation info_result := (info_result lib).
#[local] Abbreviation submit := (submit lib os).
#[local] Abbreviation after_get := (after_get os).

(** Closes an equation between two renderings of lines 98-107 on the
    answer [r], by cases on the status and on what the library makes of the
    body. *)
Ltac answer_cases r :=
  destruct (status_code r =? 200); cbn;
  [ destruct (decode_utf8 _ (content r)); cbn; [reflexivity|];
    destruct (json_loads _ _); reflexivity
  | destruct (truthy (text r)); cbn; [|reflexivity];
    destruct (json_loads _ (text r)) as [?|j]; cbn; [reflexivity|];
    destruct (py_contains j "errorMessage") as [?|[|]]; cbn; try reflexivity;
    destruct (py_getitem j "errorMessage"); reflexivity ].

(** The run of [recognition], case by case. *)
Lemma recognition_run api_key image_path save_image save_plate_text tasks ocr_module_id st :
  recognition api_key image_path save_image save_plate_text tasks ocr_module_id st =
  if os_path_isfile os (world st) image_path then
    match read_binary os (world st) image_path with
    | inl e => {| final := st; events := []; value := inl e |}
    | inr b => submit api_key image_path save_image save_plate_text tasks
                 ocr_module_id b [] st
    end
  else
    match is_valid_url image_path with
    | inl e => {| final := st; events := []; value := inl e |}
    | inr false => {| final := st; events := []; value := inl invalid_input_error |}
    | inr true =>
        let answer := snd (http_send os (world st) (image_get image_path)) in
        match answer with
        | inl e => {| final := after_get image_path st;
                      events := [EvHttp (image_get image_path) answer];
                      value := inl e |}
        | inr response =>
            if status_code response =? 200 then
              submit api_key image_path save_image save_plate_text tasks
                ocr_module_id (content response)
                [EvHttp (image_get image_path) answer] (after_get image_path st)
            else
              {| final := after_get image_path st;
                 events := [EvHttp (image_get image_path) answer];
                 value := inl image_read_error |}
        end
    end.
Proof.
  unfold recognition, submit, recognition_result, error_detail, after_get,
    requests_post, requests_get, request, isfile, open_read, get_server_url,
    json_dumps_result, bind, lift, ret, raise, image_get, recognition_post,
    server_error.
  cbn.
  destruct (os_path_isfile os (world st) image_path); cbn.
  - destruct (read_binary os (world st) image_path) as [e|b]; cbn; [reflexivity|].
    destruct (json_dumps_raises lib _) as [e|]; cbn; [reflexivity|].
    destruct (http_send os (world st) _) as [w [e|r]]; cbn; [reflexivity|].
    answer_cases r.
  - destruct (is_valid_url image_path) as [e|[|]]; cbn; try reflexivity.
    destruct (http_send os (world st) _) as [w [e|resp]]; cbn; [reflexivity|].
    destruct (status_code resp =? 200); cbn; [|reflexivity].
    destruct (json_dumps_raises lib _) as [e|]; cbn; [reflexivity|].
    destruct (http_send os w _) as [w' [e|r]]; cbn; [reflexivity|].
    answer_cases r.
Qed.

(** The run of [info]. *)
Lemma info_run api_key st :
  info api_key st =
  let req := info_get (server_url (self st)) api_key in
  let answer := snd (http_send os (world st) req) in
  {| final := {| self := self st; world := fst (http_send os (world st) req) |};
     events := EvHttp req answer ::
               match answer with
               | inr r => if negb (status_code r =? 200) then [EvPrint (info_line r)] else []
               | inl _ => []
               end;
     value := match answer with
              | inl e => inl e
              | inr r => info_result r
              end |}.
Proof.
  unfold info, info_result, info_line, info_error, info_get, requests_get, request,
    print, get_server_url, bind, lift, ret, raise.
  cbn.
  destruct (http_send os (world st) _) as [w [e|r]]; cbn; [reflexivity|].
  destruct (status_code r =? 200); cbn; [|reflexivity].
  destruct (decode_utf8 lib (content r)); cbn; [reflexivity|].
  destruct (json_loads lib _); reflexivity.
Qed.

(** *** Facts about every run *)

Lemma submit_events api_key image_path save_image save_plate_text tasks
    ocr_module_id b before st0 :
  events (submit api_key image_path save_image save_plate_text tasks
            ocr_module_id b before st0) =
  match json_dumps_raises lib
          (request_dict save_image save_plate_text tasks ocr_module_id) with
  | Some _ => before
  | None =>
      (before ++
       [EvHttp (recognition_post (server_url (self st0)) api_key image_path
                  save_image save_plate_text tasks ocr_module_id b)
               (snd (http_send os (world st0)
                       (recognition_post (server_url (self st0)) api_key image_path
                          save_image save_plate_text tasks ocr_module_id b)))])%list
  end.
Proof. unfold submit. destruct (json_dumps_raises lib _); reflexivity. Qed.


(** Whenever a POST shows among the events of a run, it is the recognition
    POST built from the arguments, and the run ends with what lines 98-107
    make of its answer. *)
Lemma post_in_run api_key image_path save_image save_plate_text tasks
    ocr_module_id st req answer :
  In (EvHttp req answer)
     (events (recognition api_key image_path save_image save_plate_text tasks
                ocr_module_id st)) ->
  method req = POST ->
  (exists b, req = recognition_post (server_url (self st)) api_key image_path
                     save_image save_plate_text tasks ocr_module_id b) /\
  value (recognition api_key image_path save_image save_plate_text tasks
           ocr_module_id st) =
  match answer with
  | inl e => inl e
  | inr r => recognition_result r
  end.
Proof.
  rewrite recognition_run.
  destruct (os_path_isfile os (world st) image_path).
  - destruct (read_binary os (world st) image_path) as [e|b]; cbn; [tauto|].
    unfold submit.
    destruct (json_dumps_raises lib _); cbn; [tauto|].
    intros [H|[]] _. inversion H; subst. split; [eauto|reflexivity].
  - destruct (is_valid_url image_path) as [e|[|]]; cbn; try tauto.
    destruct (snd (http_send os (world st) (image_get image_path))) as [e|resp] eqn:G;
      cbn.
    + intros [H|[]] Hm. inversion H; subst. discriminate Hm.
    + destruct (status_code resp =? 200); cbn.
      * unfold submit.
        destruct (json_dumps_raises lib _); cbn.
        { intros [H|[]] Hm. inversion H; subst. discriminate Hm. }
        intros [H|[H|[]]] Hm; inversion H; subst; [discriminate Hm|].
        split; [eauto|reflexivity].
      * intros [H|[]] Hm. inversion H; subst. discriminate Hm.
Qed.

Lemma status_not_200 (r : http_response) :
  status_code r <> 200 -> negb (status_code r =? 200) = true.
Proof. intro H. apply negb_true_iff, Z.eqb_neq, H. Qed.

(** Lines 99-104 with an empty body: the detail is the reason phrase. *)
Lemma recognition_empty_body api_key image_path save_image save_plate_text tasks
    ocr_module_id st req r :
  In (EvHttp req (inr r))
     (events (recognition api_key image_path save_image save_plate_text tasks
                ocr_module_id st)) ->
  method req = POST ->
  status_code r <> 200 ->
  text r = "" ->
  value (recognition api_key image_path save_image save_plate_text tasks
           ocr_module_id st) =
  inl (server_error (status_code r) (reason r)).
Proof.
  intros Hin Hm Hs Ht.
  destruct (post_in_run _ _ _ _ _ _ _ _ _ Hin Hm) as [_ ->].
  unfold recognition_result, error_detail.
  rewrite (status_not_200 _ Hs), Ht. reflexivity.
Qed.

(** Lines 100-101 with a body that [json.loads] rejects: the decoding error
    leaves [recognition] in place of the server error. *)
Lemma recognition_undecodable_body api_key image_path save_image save_plate_text
    tasks ocr_module_id st req r e :
  In (EvHttp req (inr r))
     (events (recognition api_key image_path save_image save_plate_text tasks
                ocr_module_id st)) ->
  method req = POST ->
  status_code r <> 200 ->
  text r <> "" ->
  json_loads lib (text r) = inl e ->
  value (recognition api_key image_path save_image save_plate_text tasks
           ocr_module_id st) = inl e.
Proof.
  intros Hin Hm Hs Ht Hj.
  destruct (post_in_run _ _ _ _ _ _ _ _ _ Hin Hm) as [_ ->].
  unfold recognition_result, error_detail.
  rewrite (status_not_200 _ Hs), Hj.
  destruct (text r); [congruence|reflexivity].
Qed.

(** *** The recognition POST and its error path *)

(** C3, as amended: when the recognition POST is answered with a status
    other than 200 and the body [{"errorMessage":"bad key"}], which
    [json.loads] decodes to the object with that one field, the error
    [recognition] raises has the message
    [Server returned error code <status> : bad key]: ["bad key"] is the
    detail that follows the status code, not the whole message. *)
Theorem recognition_error_message_field api_key image_path save_image
    save_plate_text tasks ocr_module_id st req r :
  In (EvHttp req (inr r))
     (events (recognition api_key image_path save_image save_plate_text tasks
                ocr_module_id st)) ->
  method req = POST ->
  status_code r <> 200 ->
  text r = bad_key_body ->
  json_loads lib bad_key_body = inr (PyDict [("errorMessage", PyStr "bad key")]) ->
  value (recognition api_key image_path save_image save_plate_text tasks
           ocr_module_id st) =
  inl (ValueError ("Server returned error code " ++ str_int (status_code r)
                   ++ " : " ++ "bad key")).
Proof.
  intros Hin Hm Hs Ht Hj.
  destruct (post_in_run _ _ _ _ _ _ _ _ _ Hin Hm) as [_ ->].
  unfold recognition_result, error_detail.
  rewrite (status_not_200 _ Hs), Ht, Hj. reflexivity.
Qed.

(** C4: the form data of every recognition POST is the single field
    [request], the [json.dumps] of a dictionary with exactly the keys
    [saveImage], [savePlateText], [tasks], [ocrModuleId]; an argument the
    call leaves out is sent as [false], [true],
    [["DETECTION","OCR","MMR"]] and [801] respectively. *)
Theorem request_field_keys_and_defaults api_key image_path kw st req answer :
  In (EvHttp req answer) (events (call_recognition api_key image_path kw st)) ->
  method req = POST ->
  exists a b c d,
    data req =
      [("request",
        json_dumps lib (PyDict [("saveImage", a); ("savePlateText", b);
                                ("tasks", c); ("ocrModuleId", d)]))] /\
    (kw_save_image kw = None -> a = PyBool false) /\
    (kw_save_plate_text kw = None -> b = PyBool true) /\
    (kw_tasks kw = None -> c = PyList [PyStr "DETECTION"; PyStr "OCR"; PyStr "MMR"]) /\
    (kw_ocr_module_id kw = None -> d = PyInt 801).
Proof.
  unfold call_recognition. intros Hin Hm.
  destruct (post_in_run _ _ _ _ _ _ _ _ _ Hin Hm) as [[buf ->] _].
  eexists _, _, _, _. split; [reflexivity|].
  repeat split; intros ->; reflexivity.
Qed.

(** C8, as amended: the [tasks] and [ocrModuleId] sent by every recognition
    POST are the caller's arguments as they came, nothing is validated; so
    they are a non-empty list and a positive integer whenever the caller's
    arguments are. *)
Theorem tasks_and_ocr_module_id_sent_as_given api_key image_path save_image
    save_plate_text tasks ocr_module_id st req answer :
  In (EvHttp req answer)
     (events (recognition api_key image_path save_image save_plate_text tasks
                ocr_module_id st)) ->
  method req = POST ->
  exists sent,
    data req = [("request", json_dumps lib sent)] /\
    py_getitem sent "tasks" = inr (PyList (map PyStr tasks)) /\
    py_getitem sent "ocrModuleId" = inr (opt_int ocr_module_id) /\
    (tasks <> [] -> is_nonempty_list (PyList (map PyStr tasks)) = true) /\
    (forall n, ocr_module_id = Some n -> 0 < n ->
               is_positive_int (opt_int ocr_module_id) = true).
Proof.
  intros Hin Hm.
  destruct (post_in_run _ _ _ _ _ _ _ _ _ Hin Hm) as [[buf ->] _].
  exists (request_dict save_image save_plate_text tasks ocr_module_id).
  repeat split.
  - destruct tasks; [congruence|reflexivity].
  - intros n -> Hn. cbn. apply Z.ltb_lt, Hn.
Qed.

(** *** Classifying the image source *)

(** When the input is not an existing file and [urlparse] gives its
    URL-decoded form no scheme or no network location, [recognition] raises
    the invalid-input error and no HTTP request is made: the run has no
    event and leaves the state as it was. *)
Lemma invalid_input_without_request api_key image_path save_image
    save_plate_text tasks ocr_module_id st parsed :
  os_path_isfile os (world st) image_path = false ->
  urlparse lib (unquote lib image_path) = inr parsed ->
  scheme parsed = "" \/ netloc parsed = "" ->
  let o := recognition api_key image_path save_image save_plate_text tasks
             ocr_module_id st in
  value o = inl invalid_input_error /\ events o = [] /\ final o = st.
Proof.
  intros Hf Hp Hs o. subst o. rewrite recognition_run, Hf.
  unfold is_valid_url. rewrite Hp.
  assert (truthy (scheme parsed) && truthy (netloc parsed) = false) as ->.
  { destruct Hs as [-> | ->]; [reflexivity|]. apply andb_false_r. }
  repeat split.
Qed.

(** When [urlparse] itself rejects the decoded string, its exception leaves
    [recognition], again before any request. *)
Lemma url_parse_error_without_request api_key image_path save_image
    save_plate_text tasks ocr_module_id st e :
  os_path_isfile os (world st) image_path = false ->
  urlparse lib (unquote lib image_path) = inl e ->
  let o := recognition api_key image_path save_image save_plate_text tasks
             ocr_module_id st in
  value o = inl e /\ events o = [] /\ final o = st.
Proof.
  intros Hf Hp o. subst o. rewrite recognition_run, Hf.
  unfold is_valid_url. rewrite Hp. repeat split.
Qed.

(** C6: when the input names an existing file whose content is [b], no
    request of the run is a GET, whatever the string looks like: each is
    the recognition POST, and its part [file] carries the input string as
    file name and [b] as content, byte for byte; when [json.dumps]
    encodes the request, that POST is sent and is the one request of the
    run. *)
Theorem local_file_sent_byte_for_byte api_key image_path save_image
    save_plate_text tasks ocr_module_id st b :
  os_path_isfile os (world st) image_path = true ->
  read_binary os (world st) image_path = inr b ->
  let o := recognition api_key image_path save_image save_plate_text tasks
             ocr_module_id st in
  (forall req answer, In (EvHttp req answer) (events o) ->
     method req = POST /\
     url req = server_url (self st) ++ "recognition" /\
     files req = [("file", (image_path, b))]) /\
  (json_dumps_raises lib
     (request_dict save_image save_plate_text tasks ocr_module_id) = None ->
   exists req answer, events o = [EvHttp req answer]).
Proof.
  intros Hf Hr o. subst o. rewrite recognition_run, Hf, Hr, submit_events.
  destruct (json_dumps_raises lib _) as [e|]; cbn [app]; split.
  - intros req answer [].
  - discriminate.
  - intros req answer [H|[]]. inversion H; subst. repeat split.
  - intros _. eexists _, _. reflexivity.
Qed.

(** C7: when the input is classified as a remote URL and the image GET is
    answered with a status other than 200, [recognition] raises the
    image-read error; the GET is the only request of the run, no POST is
    built or sent. *)
Theorem failed_fetch_raises_before_post api_key image_path save_image
    save_plate_text tasks ocr_module_id st w response :
  os_path_isfile os (world st) image_path = false ->
  is_valid_url image_path = inr true ->
  http_send os (world st) (image_get image_path) = (w, inr response) ->
  status_code response <> 200 ->
  let o := recognition api_key image_path save_image save_plate_text tasks
             ocr_module_id st in
  value o = inl image_read_error /\
  events o = [EvHttp (image_get image_path) (inr response)].
Proof.
  intros Hf Hv Hg Hs o. subst o. rewrite recognition_run, Hf, Hv.
  cbn zeta. rewrite Hg. cbn [snd].
  apply Z.eqb_neq in Hs. rewrite Hs. split; reflexivity.
Qed.

(** *** [info] *)

(** C2, as amended: on an answer with a status other than 200, [info]
    prints the line [<status> <reason> - <body>] and then raises an error
    whose message carries the numeric status code only; the reason phrase
    reaches standard output, not the error. *)
Theorem info_error_carries_status_only api_key st w r :
  http_send os (world st) (info_get (server_url (self st)) api_key) = (w, inr r) ->
  status_code r <> 200 ->
  value (info api_key st) = inl (info_error (status_code r)) /\
  events (info api_key st) =
    [EvHttp (info_get (server_url (self st)) api_key) (inr r);
     EvPrint (str_int (status_code r) ++ " " ++ reason r ++ " - " ++ text r)].
Proof.
  intros Hg Hs. rewrite info_run. cbn zeta. rewrite Hg. cbn [snd value events].
  unfold info_result. rewrite (status_not_200 _ Hs). split; reflexivity.
Qed.

(** *** The client instance *)

(** C9: a call of [info] or of [recognition] leaves the instance as it
    was, [server_url] included; and when the server gives the same answer
    to two consecutive [info] calls with the same key, the two calls end
    alike, with equal results. *)
Theorem calls_leave_client_unchanged api_key image_path save_image
    save_plate_text tasks ocr_module_id st :
  self (final (info api_key st)) = self st /\
  self (final (recognition api_key image_path save_image save_plate_text tasks
                 ocr_module_id st)) = self st /\
  (let first := info api_key st in
   let second := info api_key (final first) in
   snd (http_send os (world (final first)) (info_get (server_url (self st)) api_key)) =
   snd (http_send os (world st) (info_get (server_url (self st)) api_key)) ->
   value second = value first).
Proof.
  split; [|split].
  - rewrite info_run. reflexivity.
  - rewrite recognition_run. unfold submit.
    destruct (os_path_isfile os (world st) image_path).
    + destruct (read_binary os (world st) image_path); [reflexivity|].
      destruct (json_dumps_raises lib _); reflexivity.
    + destruct (is_valid_url image_path) as [e|[|]]; try reflexivity.
      cbn zeta.
      destruct (snd (http_send os (world st) (image_get image_path))) as [e|resp];
        [reflexivity|].
      destruct (status_code resp =? 200); [|reflexivity].
      destruct (json_dumps_raises lib _); reflexivity.
  - cbn zeta. rewrite !info_run. cbn. intros ->. reflexivity.
Qed.

End Facts.

(** C10: for a remote source, the first request of the run is the GET of
    the input string as it was given; every later request is a POST whose
    part [file] is named by that same string; and the run is the same under
    any other decoding function that classifies the input alike, so the
    decoded string serves the classification only. *)
Theorem remote_source_used_verbatim {World : Type} (lib : PyLib)
    (os : Platform World) api_key image_path save_image save_plate_text tasks
    ocr_module_id (st : state World) :
  os_path_isfile os (world st) image_path = false ->
  is_valid_url lib image_path = inr true ->
  let o := recognition lib os api_key image_path save_image save_plate_text
             tasks ocr_module_id st in
  (exists answer rest,
      events o = EvHttp (image_get image_path) answer :: rest /\
      url (image_get image_path) = image_path /\
      forall req ans, In (EvHttp req ans) rest ->
        method req = POST /\
        exists b, files req = [("file", (image_path, b))]) /\
  (forall decode,
      is_valid_url (with_unquote lib decode) image_path = inr true ->
      recognition (with_unquote lib decode) os api_key image_path save_image
        save_plate_text tasks ocr_module_id st = o).
Proof.
  intros Hf Hv o. subst o. split.
  - rewrite recognition_run, Hf, Hv. cbn zeta.
    destruct (snd (http_send os (world st) (image_get image_path))) as [e|resp].
    + exists (inl e), []. repeat split; contradiction.
    + destruct (status_code resp =? 200).
      * rewrite submit_events.
        destruct (json_dumps_raises lib _); cbn [app].
        { exists (inr resp), []. repeat split; contradiction. }
        eexists _, _. split; [reflexivity|]. split; [reflexivity|].
        intros req ans [H|[]]. inversion H; subst. split; [reflexivity|].
        eexists. reflexivity.
      * exists (inr resp), []. repeat split; contradiction.
  - intros decode Hd. rewrite !recognition_run, Hf, Hv, Hd. reflexivity.
Qed.

(** ** The client on concrete inputs *)

Example init_stores_url :
  self (final (init "https://trafficeye.ai/"
                 {| self := {| server_url := "" |};
                    world := with_file picture picture |})) =
  {| server_url := "https://trafficeye.ai/" |}.
Proof. reflexivity. Qed.

(** The [request] field of a call that passes no keyword argument. *)
Example default_request_field :
  data default_post =
  [("request",
    "{" ++ quoted "saveImage" ++ ": false, "
        ++ quoted "savePlateText" ++ ": true, "
        ++ quoted "tasks" ++ ": [" ++ quoted "DETECTION" ++ ", " ++ quoted "OCR"
                                   ++ ", " ++ quoted "MMR" ++ "], "
        ++ quoted "ocrModuleId" ++ ": 801}")].
Proof. reflexivity. Qed.

(** [info] on a 200 answer with body [{"status":"ok"}]. *)
Example info_returns_mapping :
  value (info reference simulated "key"
           (client_in (with_file (response 200 "OK" status_ok_body) picture))) =
  inr (PyDict [("status", PyStr "ok")]).
Proof. reflexivity. Qed.

(** *** An error answer whose body is not JSON *)

(** C1 fails on the code.  On the answer [502 Bad Gateway] with an HTML
    body to its POST, [recognition] raises the [JSONDecodeError] of
    [json.loads] at line 101; the server error with the reason phrase
    ["Bad Gateway"] as detail is not what the caller gets. *)
Theorem non_json_error_body_masks_server_error :
  let o := recognition reference simulated "key" "car.jpg" default_save_image
             default_save_plate_text default_tasks default_ocr_module_id
             (client_in (with_file picture bad_gateway)) in
  events o = [EvHttp default_post (inr bad_gateway)] /\
  value o = inl JSONDecodeError /\
  value o <> inl (server_error 502 "Bad Gateway").
Proof.
  cbn zeta. split; [reflexivity|].
  assert (value (recognition reference simulated "key" "car.jpg" default_save_image
                   default_save_plate_text default_tasks default_ocr_module_id
                   (client_in (with_file picture bad_gateway))) =
          inl JSONDecodeError) as ->.
  { apply (recognition_undecodable_body reference simulated "key" "car.jpg"
             default_save_image default_save_plate_text default_tasks
             default_ocr_module_id (client_in (with_file picture bad_gateway))
             default_post bad_gateway JSONDecodeError).
    - left. reflexivity.
    - reflexivity.
    - discriminate.
    - discriminate.
    - reflexivity. }
  split; [reflexivity|discriminate].
Qed.

(** With an empty body the same answer does give the reason phrase. *)
Example empty_error_body_gives_reason :
  value (recognition reference simulated "key" "car.jpg" default_save_image
           default_save_plate_text default_tasks default_ocr_module_id
           (client_in (with_file picture (response 502 "Bad Gateway" "")))) =
  inl (server_error 502 "Bad Gateway").
Proof.
  apply (recognition_empty_body reference simulated "key" "car.jpg"
           default_save_image default_save_plate_text default_tasks
           default_ocr_module_id
           (client_in (with_file picture (response 502 "Bad Gateway" "")))
           default_post (response 502 "Bad Gateway" "")).
  - left. reflexivity.
  - reflexivity.
  - discriminate.
  - reflexivity.
Qed.

(** *** What the error of [info] carries *)

(** C2 fails on the code: two answers with the status 404 and different
    reason phrases make [info] raise one and the same error, whose message
    holds the status code and no reason phrase. *)
Lemma info_error_hides_reason :
  value (info reference simulated "key" (client_in (with_file not_found picture))) =
    inl (ValueError "Server returned error code 404") /\
  value (info reference simulated "key" (client_in (with_file no_such_page picture))) =
    inl (ValueError "Server returned error code 404") /\
  reason not_found <> reason no_such_page /\
  occurs (reason not_found) "Server returned error code 404" = false.
Proof. repeat split. discriminate. Qed.

Lemma info_error_carries_status_only_witness :
  value (info reference simulated "key" (client_in (with_file not_found picture))) =
    inl (info_error 404) /\
  events (info reference simulated "key" (client_in (with_file not_found picture))) =
    [EvHttp (info_get "https://trafficeye.ai/" "key") (inr not_found);
     EvPrint "404 Not Found - "].
Proof.
  apply (info_error_carries_status_only reference simulated "key"
           (client_in (with_file not_found picture))
           (with_file not_found picture) not_found).
  - reflexivity.
  - discriminate.
Defined.

(** *** An error answer with an [errorMessage] *)

Lemma recognition_error_message_field_witness :
  value (recognition reference simulated "key" "car.jpg" default_save_image
           default_save_plate_text default_tasks default_ocr_module_id
           (client_in (with_file picture unauthorized))) =
  inl (ValueError "Server returned error code 401 : bad key").
Proof.
  apply (recognition_error_message_field reference simulated "key" "car.jpg"
           default_save_image default_save_plate_text default_tasks
           default_ocr_module_id (client_in (with_file picture unauthorized))
           default_post unauthorized).
  - left. reflexivity.
  - reflexivity.
  - discriminate.
  - reflexivity.
  - reflexivity.
Defined.

(** C3 fails on the code: on the answer [401 Unauthorized] with the body
    [{"errorMessage":"bad key"}], the error raised has the message
    [Server returned error code 401 : bad key]; it is not the error whose
    message is ["bad key"]. *)
Lemma bad_key_is_only_the_detail :
  let o := recognition reference simulated "key" "car.jpg" default_save_image
             default_save_plate_text default_tasks default_ocr_module_id
             (client_in (with_file picture unauthorized)) in
  text unauthorized = bad_key_body /\
  events o = [EvHttp default_post (inr unauthorized)] /\
  value o = inl (ValueError "Server returned error code 401 : bad key") /\
  value o <> inl (ValueError "bad key").
Proof.
  cbn zeta. split; [reflexivity|]. split; [reflexivity|].
  assert (value (recognition reference simulated "key" "car.jpg" default_save_image
                   default_save_plate_text default_tasks default_ocr_module_id
                   (client_in (with_file picture unauthorized))) =
          inl (ValueError "Server returned error code 401 : bad key")) as ->
    by reflexivity.
  split; [reflexivity|discriminate].
Qed.

(** *** The [request] field *)

Lemma request_field_keys_and_defaults_witness :
  exists a b c d,
    data default_post =
      [("request",
        json_dumps reference (PyDict [("saveImage", a); ("savePlateText", b);
                                      ("tasks", c); ("ocrModuleId", d)]))] /\
    (kw_save_image no_kwargs = None -> a = PyBool false) /\
    (kw_save_plate_text no_kwargs = None -> b = PyBool true) /\
    (kw_tasks no_kwargs = None ->
     c = PyList [PyStr "DETECTION"; PyStr "OCR"; PyStr "MMR"]) /\
    (kw_ocr_module_id no_kwargs = None -> d = PyInt 801).
Proof.
  apply (request_field_keys_and_defaults reference simulated "key" "car.jpg"
           no_kwargs (client_in (with_file picture unauthorized))
           default_post (inr unauthorized)).
  - left. reflexivity.
  - reflexivity.
Defined.

(** *** An input that is neither a file nor a URL *)

Example plain_text_input_rejected :
  let o := recognition reference simulated "key" "not a url" default_save_image
             default_save_plate_text default_tasks default_ocr_module_id
             (client_in (without_file picture picture)) in
  value o = inl invalid_input_error /\ events o = [] /\
  final o = client_in (without_file picture picture).
Proof.
  apply (invalid_input_without_request reference simulated "key" "not a url"
           default_save_image default_save_plate_text default_tasks
           default_ocr_module_id (client_in (without_file picture picture))
           {| scheme := ""; netloc := "" |}).
  - reflexivity.
  - reflexivity.
  - left. reflexivity.
Qed.

(** C5 fails on the code.  The string [http://[] names no file and its
    decoded form is no URL with a scheme and a network location, yet
    [recognition] does not raise the invalid-input error on it: [urlparse]
    rejects the unbalanced bracket and its own [ValueError] leaves
    [is_valid_url] and [recognition].  No HTTP request is made. *)
Theorem unbalanced_bracket_escapes_classification :
  let o := recognition reference simulated "key" "http://[" default_save_image
             default_save_plate_text default_tasks default_ocr_module_id
             (client_in (without_file picture picture)) in
  os_path_isfile simulated (without_file picture picture) "http://[" = false /\
  is_valid_url reference "http://[" = inl (ValueError "Invalid IPv6 URL") /\
  value o = inl (ValueError "Invalid IPv6 URL") /\
  value o <> inl invalid_input_error /\
  events o = [].
Proof.
  destruct (url_parse_error_without_request reference simulated "key" "http://["
              default_save_image default_save_plate_text default_tasks
              default_ocr_module_id (client_in (without_file picture picture))
              (ValueError "Invalid IPv6 URL") eq_refl eq_refl) as (Hv & He & _).
  cbn zeta. rewrite Hv, He.
  repeat split. discriminate.
Qed.

(** *** A local file *)

Lemma local_file_sent_byte_for_byte_witness :
  exists req answer,
    events (recognition reference simulated "key" "car.jpg" default_save_image
              default_save_plate_text default_tasks default_ocr_module_id
              (client_in (with_file not_found unauthorized))) =
      [EvHttp req answer] /\
    method req = POST /\
    url req = "https://trafficeye.ai/recognition" /\
    files req = [("file", ("car.jpg", car_jpg))].
Proof.
  destruct (local_file_sent_byte_for_byte reference simulated "key" "car.jpg"
              default_save_image default_save_plate_text default_tasks
              default_ocr_module_id (client_in (with_file not_found unauthorized))
              car_jpg eq_refl eq_refl) as [Hall Hsent].
  destruct (Hsent eq_refl) as (req & answer & He).
  exists req, answer. split; [exact He|].
  apply (Hall req answer). rewrite He. left. reflexivity.
Defined.

(** *** A remote image that cannot be fetched *)

Lemma failed_fetch_raises_before_post_witness :
  let o := recognition reference simulated "key" "https://example.com/car.jpg"
             default_save_image default_save_plate_text default_tasks
             default_ocr_module_id (client_in (without_file not_found picture)) in
  value o = inl image_read_error /\
  events o = [EvHttp (image_get "https://example.com/car.jpg") (inr not_found)].
Proof.
  apply (failed_fetch_raises_before_post reference simulated "key"
           "https://example.com/car.jpg" default_save_image
           default_save_plate_text default_tasks default_ocr_module_id
           (client_in (without_file not_found picture))
           (without_file not_found picture) not_found).
  - reflexivity.
  - reflexivity.
  - reflexivity.
  - discriminate.
Defined.

(** *** Arguments that are not checked *)

(** C8 fails on the code: called with [tasks=[]] and [ocr_module_id=0],
    [recognition] sends its POST all the same, and the [request] field
    decodes to an object whose [tasks] is the empty list and whose
    [ocrModuleId] is 0. *)
Lemma empty_tasks_and_zero_module_are_sent :
  let o := recognition reference simulated "key" "car.jpg" default_save_image
             default_save_plate_text [] (Some 0)
             (client_in (with_file picture (response 200 "OK" status_ok_body))) in
  exists req answer field sent,
    In (EvHttp req answer) (events o) /\
    method req = POST /\
    data req = [("request", field)] /\
    json_loads reference field = inr sent /\
    py_getitem sent "tasks" = inr (PyList []) /\
    py_getitem sent "ocrModuleId" = inr (PyInt 0) /\
    is_nonempty_list (PyList []) = false /\
    is_positive_int (PyInt 0) = false.
Proof.
  cbn zeta.
  exists unchecked_post, (inr (response 200 "OK" status_ok_body)).
  eexists _, _. split; [left; reflexivity|].
  split; [reflexivity|]. split; [reflexivity|].
  split; [vm_compute; reflexivity|].
  repeat split.
Qed.

Lemma tasks_and_ocr_module_id_sent_as_given_witness :
  exists sent,
    data default_post = [("request", json_dumps reference sent)] /\
    py_getitem sent "tasks" = inr (PyList (map PyStr default_tasks)) /\
    py_getitem sent "ocrModuleId" = inr (opt_int default_ocr_module_id) /\
    (default_tasks <> [] -> is_nonempty_list (PyList (map PyStr default_tasks)) = true) /\
    (forall n, default_ocr_module_id = Some n -> 0 < n ->
               is_positive_int (opt_int default_ocr_module_id) = true).
Proof.
  apply (tasks_and_ocr_module_id_sent_as_given reference simulated "key" "car.jpg"
           default_save_image default_save_plate_text default_tasks
           default_ocr_module_id (client_in (with_file picture unauthorized))
           default_post (inr unauthorized)).
  - left. reflexivity.
  - reflexivity.
Defined.

(** *** Two calls in a row *)

Lemma calls_leave_client_unchanged_witness :
  let st := client_in (with_file (response 200 "OK" status_ok_body) picture) in
  self (final (info reference simulated "key" st)) = self st /\
  self (final (recognition reference simulated "key" "car.jpg" default_save_image
                 default_save_plate_text default_tasks default_ocr_module_id st)) =
    self st /\
  value (info reference simulated "key" (final (info reference simulated "key" st))) =
    value (info reference simulated "key" st).
Proof.
  cbn zeta.
  destruct (calls_leave_client_unchanged reference simulated "key" "car.jpg"
              default_save_image default_save_plate_text default_tasks
              default_ocr_module_id
              (client_in (with_file (response 200 "OK" status_ok_body) picture)))
    as (Hinfo & Hrec & Hsame).
  split; [exact Hinfo|]. split; [exact Hrec|].
  apply Hsame. reflexivity.
Defined.

(** Against a server that answers differently the second time, the two
    results differ; the instance is the same all along. *)
Example info_follows_the_server :
  let st := {| self := {| server_url := "https://trafficeye.ai/" |}; world := 0%nat |} in
  let first := info reference counting "key" st in
  let second := info reference counting "key" (final first) in
  value first = inr (PyInt 0) /\ value second = inr (PyInt 1) /\
  self (final second) = self st.
Proof. repeat split. Qed.

(** *** A URL with an escape *)

Lemma remote_source_used_verbatim_witness :
  let st := client_in (without_file picture unauthorized) in
  let o := recognition reference simulated "key" escaped_url default_save_image
             default_save_plate_text default_tasks default_ocr_module_id st in
  (exists answer rest,
      events o = EvHttp (image_get escaped_url) answer :: rest /\
      url (image_get escaped_url) = escaped_url /\
      forall req ans, In (EvHttp req ans) rest ->
        method req = POST /\
        exists b, files req = [("file", (escaped_url, b))]) /\
  (forall decode,
      is_valid_url (with_unquote reference decode) escaped_url = inr true ->
      recognition (with_unquote reference decode) simulated "key" escaped_url
        default_save_image default_save_plate_text default_tasks
        default_ocr_module_id st = o).
Proof.
  apply (remote_source_used_verbatim reference simulated "key" escaped_url
           default_save_image default_save_plate_text default_tasks
           default_ocr_module_id (client_in (without_file picture unauthorized))).
  - reflexivity.
  - reflexivity.
Defined.

(** The run on that URL: one GET of the string as given, then the POST
    with the fetched bytes under the same name. *)
Example escaped_url_run :
  events (recognition reference simulated "key" escaped_url default_save_image
            default_save_plate_text default_tasks default_ocr_module_id
            (client_in (without_file picture unauthorized))) =
  [EvHttp (image_get escaped_url) (inr picture);
   EvHttp (recognition_post reference "https://trafficeye.ai/" "key" escaped_url
             default_save_image default_save_plate_text default_tasks
             default_ocr_module_id car_jpg) (inr unauthorized)] /\
  unquote reference escaped_url = "https://example.com/my car.jpg".
Proof. split; reflexivity. Qed.

(** ** Further facts about the client, for every library and platform *)

Section Coverage.
Context {World : Type}.
Variable lib : PyLib.
Variable os : Platform World.

#[local] Abbreviation is_valid_url := (is_valid_url lib).
#[local] Abbreviation info := (info lib os).
#[local] Abbreviation recognition := (recognition lib os).
#[local] Abbreviation recognition_post := (recognition_post lib).
#[local] Abbreviation recognition_result := (recognition_result lib).
#[local] Abbreviation error_detail := (error_detail lib).
#[local] Abbreviation info_result := (info_result lib).
#[local] Abbreviation submit := (submit lib os).
#[local] Abbreviation after_get := (after_get os).
#[local] Abbreviation main := (main lib os).

(** *** [info] *)

(** What [info] does that can be seen, by the answer to its GET. *)
Lemma info_events api_key st :
  events (info api_key st) =
  EvHttp (info_get (server_url (self st)) api_key)
         (snd (http_send os (world st) (info_get (server_url (self st)) api_key))) ::
  match snd (http_send os (world st) (info_get (server_url (self st)) api_key)) with
  | inr r => if negb (status_code r =? 200) then [EvPrint (info_line r)] else []
  | inl _ => []
  end.
Proof. rewrite info_run. reflexivity. Qed.

(** X1: A call of [info] makes one HTTP request whatever happens, the GET of
    [server_url + "info"] with the key in the header [apikey]; all it does
    besides is print, and it prints exactly when the answer has a status
    other than 200. *)
Theorem info_makes_one_get api_key st :
  exists answer printed,
    events (info api_key st) =
      EvHttp (info_get (server_url (self st)) api_key) answer :: printed /\
    (forall ev, In ev printed -> exists line, ev = EvPrint line) /\
    (printed <> [] <-> exists r, answer = inr r /\ status_code r <> 200).
Proof.
  rewrite info_run. cbn zeta. cbn [events].
  destruct (snd (http_send os (world st) (info_get (server_url (self st)) api_key)))
    as [e|r].
  - exists (inl e), []. split; [reflexivity|]. split; [intros ev []|].
    split; [congruence|]. intros (r & Hr & _). discriminate Hr.
  - destruct (Z.eqb_spec (status_code r) 200) as [Heq|Hne]; cbn [negb].
    + exists (inr r), []. split; [reflexivity|]. split; [intros ev []|].
      split; [congruence|]. intros (r' & Hr & Hs). inversion Hr; subst. contradiction.
    + exists (inr r), [EvPrint (info_line r)]. split; [reflexivity|].
      split; [intros ev [<-|[]]; eauto|].
      split; [eauto|discriminate].
Qed.

(** X2: [info] returns a value exactly when the GET is answered with status
    200 and a body that decodes as UTF-8 and then as JSON; the value is
    that JSON value. *)
Theorem info_returns_iff api_key st v :
  value (info api_key st) = inr v <->
  exists r body,
    snd (http_send os (world st) (info_get (server_url (self st)) api_key)) = inr r /\
    status_code r = 200 /\
    decode_utf8 lib (content r) = inr body /\
    json_loads lib body = inr v.
Proof.
  rewrite info_run. cbn zeta. cbn [value]. unfold info_result.
  destruct (snd (http_send os (world st) (info_get (server_url (self st)) api_key)))
    as [e|r].
  - split; [discriminate|]. intros (r & body & Hr & _). discriminate Hr.
  - destruct (Z.eqb_spec (status_code r) 200) as [Heq|Hne]; cbn [negb].
    + split.
      * destruct (decode_utf8 lib (content r)) as [e|body] eqn:Hd; [discriminate|].
        intros Hv. exists r, body. auto.
      * intros (r' & body & Hr & _ & Hd & Hv). inversion Hr; subst r'.
        rewrite Hd. exact Hv.
    + split; [discriminate|].
      intros (r' & body & Hr & Hs & _). inversion Hr; subst r'. contradiction.
Qed.

(** X3: Every exception that leaves [info] is one of four: the one the
    transport raised, the status error of a non-200 answer, or, on a 200
    answer, the error of decoding the body as UTF-8 or as JSON.  None is
    caught or replaced. *)
Theorem info_raises_only api_key st e :
  value (info api_key st) = inl e ->
  let answer := snd (http_send os (world st) (info_get (server_url (self st)) api_key)) in
  answer = inl e \/
  (exists r, answer = inr r /\ status_code r <> 200 /\ e = info_error (status_code r)) \/
  (exists r, answer = inr r /\ status_code r = 200 /\
             decode_utf8 lib (content r) = inl e) \/
  (exists r body, answer = inr r /\ status_code r = 200 /\
                  decode_utf8 lib (content r) = inr body /\
                  json_loads lib body = inl e).
Proof.
  rewrite info_run. cbn zeta. cbn [value]. unfold info_result.
  destruct (snd (http_send os (world st) (info_get (server_url (self st)) api_key)))
    as [e0|r].
  - intros [= ->]. left. reflexivity.
  - destruct (Z.eqb_spec (status_code r) 200) as [Heq|Hne]; cbn [negb].
    + destruct (decode_utf8 lib (content r)) as [e0|body] eqn:Hd.
      * intros [= ->]. right. right. left. eauto.
      * intros Hv. right. right. right. eauto 6.
    + intros [= <-]. right. left. eauto.
Qed.

(** *** The requests of [recognition] *)

(** X4: a call of [recognition] does nothing visible but HTTP requests, two
    at most, and never prints.  A run is one of four: no request at all;
    the GET of the input string alone; for an existing file, the POST alone,
    carrying the bytes read from that file; for a remote source, the GET
    answered with status 200 and then the POST carrying the body of that
    answer. *)
Theorem recognition_makes_at_most_two_requests api_key image_path save_image
    save_plate_text tasks ocr_module_id st :
  let o := recognition api_key image_path save_image save_plate_text tasks
             ocr_module_id st in
  let post := recognition_post (server_url (self st)) api_key image_path
                save_image save_plate_text tasks ocr_module_id in
  events o = [] \/
  (exists a,
      os_path_isfile os (world st) image_path = false /\
      a = snd (http_send os (world st) (image_get image_path)) /\
      events o = [EvHttp (image_get image_path) a]) \/
  (exists b,
      os_path_isfile os (world st) image_path = true /\
      read_binary os (world st) image_path = inr b /\
      events o = [EvHttp (post b) (snd (http_send os (world st) (post b)))]) \/
  (exists w r,
      os_path_isfile os (world st) image_path = false /\
      http_send os (world st) (image_get image_path) = (w, inr r) /\
      status_code r = 200 /\
      events o = [EvHttp (image_get image_path) (inr r);
                  EvHttp (post (content r)) (snd (http_send os w (post (content r))))]).
Proof.
  cbn zeta. rewrite recognition_run.
  destruct (os_path_isfile os (world st) image_path).
  - destruct (read_binary os (world st) image_path) as [e|b] eqn:Hr;
      [left; reflexivity|].
    rewrite submit_events.
    destruct (json_dumps_raises lib _); [left; reflexivity|].
    right. right. left. exists b. cbn [app]. auto.
  - destruct (is_valid_url image_path) as [e|[|]]; try (left; reflexivity).
    cbn zeta. unfold after_get.
    destruct (http_send os (world st) (image_get image_path)) as [w [e|resp]] eqn:Hg;
      cbn [snd fst].
    + right. left. eexists. auto.
    + destruct (Z.eqb_spec (status_code resp) 200) as [Hs|Hs].
      * rewrite submit_events. cbn [self world].
        destruct (json_dumps_raises lib _); cbn [app].
        { right. left. eexists. auto. }
        right. right. right. exists w, resp. auto.
      * right. left. eexists. auto.
Qed.

(** X5: The API key goes to the server only: a GET made by [recognition] asks
    for the input string and carries no header, no form data and no file;
    a POST goes to [server_url + "recognition"] with the key in the header
    [apiKey].  Both wait 60 seconds at most. *)
Theorem api_key_sent_to_server_only api_key image_path save_image
    save_plate_text tasks ocr_module_id st req answer :
  In (EvHttp req answer)
     (events (recognition api_key image_path save_image save_plate_text tasks
                ocr_module_id st)) ->
  timeout req = 60 /\
  match method req with
  | GET => url req = image_path /\ headers req = [] /\ data req = [] /\ files req = []
  | POST => url req = server_url (self st) ++ "recognition" /\
            headers req = [("apiKey", api_key)]
  end.
Proof.
  rewrite recognition_run.
  destruct (os_path_isfile os (world st) image_path).
  - destruct (read_binary os (world st) image_path) as [e|b]; cbn; [tauto|].
    rewrite submit_events.
    destruct (json_dumps_raises lib _); cbn; [tauto|].
    intros [H|[]]. inversion H; subst. cbn. auto.
  - destruct (is_valid_url image_path) as [e|[|]]; cbn; try tauto.
    destruct (snd (http_send os (world st) (image_get image_path))) as [e|resp];
      cbn.
    + intros [H|[]]. inversion H; subst. cbn. auto.
    + destruct (status_code resp =? 200); cbn.
      * rewrite submit_events.
        destruct (json_dumps_raises lib _); cbn;
          intros [H|H]; try (inversion H; subst; cbn; auto; fail).
        destruct H as [H|[]]. inversion H; subst. cbn. auto.
      * intros [H|[]]. inversion H; subst. cbn. auto.
Qed.

(** Lines 98-107 give a value on a 200 answer only. *)
Lemma recognition_result_value r v :
  recognition_result r = inr v <->
  status_code r = 200 /\
  exists body, decode_utf8 lib (content r) = inr body /\ json_loads lib body = inr v.
Proof.
  unfold recognition_result.
  destruct (Z.eqb_spec (status_code r) 200) as [Heq|Hne]; cbn [negb].
  - split.
    + destruct (decode_utf8 lib (content r)) as [e|body]; [discriminate|]. eauto.
    + intros (_ & body & -> & Hv). exact Hv.
  - split; [|tauto].
    destruct (error_detail r); discriminate.
Qed.

(** X6: [recognition] returns a value exactly when its POST is answered with
    status 200 and a body that decodes as UTF-8 and then as JSON; the
    value is that JSON value, an [errorMessage] field in it or not. *)
Theorem recognition_returns_iff api_key image_path save_image save_plate_text
    tasks ocr_module_id st v :
  let o := recognition api_key image_path save_image save_plate_text tasks
             ocr_module_id st in
  value o = inr v <->
  exists req r body,
    In (EvHttp req (inr r)) (events o) /\
    method req = POST /\
    status_code r = 200 /\
    decode_utf8 lib (content r) = inr body /\
    json_loads lib body = inr v.
Proof.
  cbn zeta. split.
  - assert (Hsubmit : forall b before st0,
      value (submit api_key image_path save_image save_plate_text tasks
               ocr_module_id b before st0) = inr v ->
      exists req r body,
        In (EvHttp req (inr r))
           (events (submit api_key image_path save_image save_plate_text tasks
                      ocr_module_id b before st0)) /\
        method req = POST /\ status_code r = 200 /\
        decode_utf8 lib (content r) = inr body /\ json_loads lib body = inr v).
    { intros b before st0. rewrite submit_events. unfold submit.
      destruct (json_dumps_raises lib _); cbn [value]; [discriminate|].
      destruct (snd (http_send os (world st0) _)) as [e|r]; [discriminate|].
      intros Hv. apply recognition_result_value in Hv as (Hs & body & Hd & Hl).
      eexists _, r, body. split; [apply in_or_app; right; left; reflexivity|].
      auto. }
    rewrite recognition_run.
    destruct (os_path_isfile os (world st) image_path).
    + destruct (read_binary os (world st) image_path) as [e|b]; [discriminate|].
      apply Hsubmit.
    + destruct (is_valid_url image_path) as [e|[|]]; try discriminate.
      cbn zeta.
      destruct (snd (http_send os (world st) (image_get image_path))) as [e|resp];
        [discriminate|].
      destruct (status_code resp =? 200); [apply Hsubmit|discriminate].
  - intros (req & r & body & Hin & Hm & Hs & Hd & Hv).
    destruct (post_in_run lib os _ _ _ _ _ _ _ _ _ Hin Hm) as [_ ->].
    apply recognition_result_value. eauto.
Qed.

(** *** Obtaining the image *)

(** X7: when the image GET is answered with status 200 and [json.dumps]
    encodes the request, the body of that answer is what the POST carries
    as the part [file], byte for byte and under the URL as its name, empty
    or not; the POST is sent to the world the GET left. *)
Theorem fetched_image_forwarded api_key image_path save_image save_plate_text
    tasks ocr_module_id st w r :
  os_path_isfile os (world st) image_path = false ->
  is_valid_url image_path = inr true ->
  http_send os (world st) (image_get image_path) = (w, inr r) ->
  status_code r = 200 ->
  json_dumps_raises lib
    (request_dict save_image save_plate_text tasks ocr_module_id) = None ->
  exists req,
    events (recognition api_key image_path save_image save_plate_text tasks
              ocr_module_id st) =
      [EvHttp (image_get image_path) (inr r);
       EvHttp req (snd (http_send os w req))] /\
    method req = POST /\
    files req = [("file", (image_path, content r))].
Proof.
  intros Hf Hv Hg Hs Hj. rewrite recognition_run, Hf, Hv. cbn zeta.
  rewrite Hg. cbn [snd]. rewrite Hs. cbn [Z.eqb Pos.eqb].
  rewrite submit_events, Hj. unfold after_get. rewrite Hg. cbn [app self world fst].
  eexists. repeat split.
Qed.

(** X8: A failure of the platform while the image is obtained, be it the read
    of the local file or the transport of the GET, leaves [recognition] as
    it was raised; it is not turned into the image-read error, and no POST
    is made. *)
Theorem image_failure_propagates api_key image_path save_image save_plate_text
    tasks ocr_module_id st e :
  (os_path_isfile os (world st) image_path = true /\
   read_binary os (world st) image_path = inl e) \/
  (os_path_isfile os (world st) image_path = false /\
   is_valid_url image_path = inr true /\
   snd (http_send os (world st) (image_get image_path)) = inl e) ->
  let o := recognition api_key image_path save_image save_plate_text tasks
             ocr_module_id st in
  value o = inl e /\
  forall req answer, In (EvHttp req answer) (events o) -> method req = GET.
Proof.
  intros [[Hf Hr]|(Hf & Hv & Hg)]; cbn zeta; rewrite recognition_run, Hf.
  - rewrite Hr. split; [reflexivity|]. intros req answer [].
  - rewrite Hv. cbn zeta. rewrite Hg. split; [reflexivity|].
    intros req answer [H|[]]. inversion H. reflexivity.
Qed.

(** *** The body of an error answer *)

(** X9: When the body of a non-200 answer decodes to a JSON object, the detail
    of the server error is the value of its field [errorMessage], printed
    as [str] prints it ([None] for [null], the digits of a number), and the
    reason phrase when the object has no such field. *)
Theorem error_detail_from_object api_key image_path save_image save_plate_text
    tasks ocr_module_id st req r d :
  In (EvHttp req (inr r))
     (events (recognition api_key image_path save_image save_plate_text tasks
                ocr_module_id st)) ->
  method req = POST ->
  status_code r <> 200 ->
  text r <> "" ->
  json_loads lib (text r) = inr (PyDict d) ->
  value (recognition api_key image_path save_image save_plate_text tasks
           ocr_module_id st) =
  inl (server_error (status_code r)
         match assoc_lookup "errorMessage" d with
         | Some v => format_value lib v
         | None => reason r
         end).
Proof.
  intros Hin Hm Hs Ht Hj.
  destruct (post_in_run lib os _ _ _ _ _ _ _ _ _ Hin Hm) as [_ ->].
  unfold recognition_result, error_detail.
  rewrite (status_not_200 _ Hs), Hj.
  destruct (text r); [congruence|]. cbn.
  destruct (assoc_lookup "errorMessage" d); reflexivity.
Qed.

(** X10: When the body of a non-200 answer decodes to [null], a boolean or a
    number, the test ["errorMessage" in returned_json] raises [TypeError],
    and that is what leaves [recognition], not the server error. *)
Theorem scalar_error_body_raises_type_error api_key image_path save_image
    save_plate_text tasks ocr_module_id st req r j :
  In (EvHttp req (inr r))
     (events (recognition api_key image_path save_image save_plate_text tasks
                ocr_module_id st)) ->
  method req = POST ->
  status_code r <> 200 ->
  text r <> "" ->
  json_loads lib (text r) = inr j ->
  j = PyNone \/ (exists b, j = PyBool b) \/ (exists n, j = PyInt n) \/
  (exists x, j = PyFloat x) ->
  value (recognition api_key image_path save_image save_plate_text tasks
           ocr_module_id st) = inl TypeError.
Proof.
  intros Hin Hm Hs Ht Hj Hscalar.
  destruct (post_in_run lib os _ _ _ _ _ _ _ _ _ Hin Hm) as [_ ->].
  unfold recognition_result, error_detail.
  rewrite (status_not_200 _ Hs), Hj.
  destruct (text r); [congruence|].
  destruct Hscalar as [->|[[b ->]|[[n ->]|[x ->]]]]; reflexivity.
Qed.

(** X11: When the body of a non-200 answer decodes to a JSON string, the test
    is a substring test: a string that holds [errorMessage] somewhere is
    then indexed with a [str] and [TypeError] is raised; any other string
    gives the server error with the reason phrase. *)
Theorem string_error_body api_key image_path save_image save_plate_text tasks
    ocr_module_id st req r s :
  In (EvHttp req (inr r))
     (events (recognition api_key image_path save_image save_plate_text tasks
                ocr_module_id st)) ->
  method req = POST ->
  status_code r <> 200 ->
  text r <> "" ->
  json_loads lib (text r) = inr (PyStr s) ->
  value (recognition api_key image_path save_image save_plate_text tasks
           ocr_module_id st) =
  if occurs "errorMessage" s then inl TypeError
  else inl (server_error (status_code r) (reason r)).
Proof.
  intros Hin Hm Hs Ht Hj.
  destruct (post_in_run lib os _ _ _ _ _ _ _ _ _ Hin Hm) as [_ ->].
  unfold recognition_result, error_detail.
  rewrite (status_not_200 _ Hs), Hj.
  destruct (text r); [congruence|].
  cbn [truthy py_contains].
  destruct (occurs "errorMessage" s); reflexivity.
Qed.

(** X12: When the body of a non-200 answer decodes to a JSON array, the test is
    a membership test: an array with the string [errorMessage] among its
    elements is then indexed with a [str] and [TypeError] is raised; any
    other array gives the server error with the reason phrase. *)
Theorem array_error_body api_key image_path save_image save_plate_text tasks
    ocr_module_id st req r items :
  In (EvHttp req (inr r))
     (events (recognition api_key image_path save_image save_plate_text tasks
                ocr_module_id st)) ->
  method req = POST ->
  status_code r <> 200 ->
  text r <> "" ->
  json_loads lib (text r) = inr (PyList items) ->
  value (recognition api_key image_path save_image save_plate_text tasks
           ocr_module_id st) =
  if existsb (is_str "errorMessage") items then inl TypeError
  else inl (server_error (status_code r) (reason r)).
Proof.
  intros Hin Hm Hs Ht Hj.
  destruct (post_in_run lib os _ _ _ _ _ _ _ _ _ Hin Hm) as [_ ->].
  unfold recognition_result, error_detail.
  rewrite (status_not_200 _ Hs), Hj.
  destruct (text r); [congruence|].
  cbn [truthy py_contains].
  destruct (existsb (is_str "errorMessage") items); reflexivity.
Qed.

(** *** The script *)

(** The instance after [MmrApiClient(NET_ADDRESS)]. *)
Lemma main_run IMAGE_PATH NET_ADDRESS API_KEY st :
  main IMAGE_PATH NET_ADDRESS API_KEY st =
  if String.eqb API_KEY "" then
    {| final := st; events := []; value := inl setup_error |}
  else
    let first := info API_KEY {| self := {| server_url := NET_ADDRESS |};
                                 world := world st |} in
    match value first with
    | inl e => {| final := final first; events := events first; value := inl e |}
    | inr v1 =>
        let second := recognition API_KEY IMAGE_PATH default_save_image
                        default_save_plate_text default_tasks
                        default_ocr_module_id (final first) in
        {| final := final second;
           events := events first ++
                     EvPrint (format_value lib v1) :: EvPrint "Recognition:" ::
                     events second ++
                     match value second with
                     | inl _ => []
                     | inr v2 => [EvPrint (format_value lib v2)]
                     end;
           value := match value second with
                    | inl e => inl e
                    | inr _ => inr tt
                    end |}
    end.
Proof.
  unfold main, str_equals_path, init, set_server_url, print. cbn [orb].
  destruct (String.eqb API_KEY ""); [reflexivity|].
  unfold bind. cbn [value final events app].
  destruct (value (info API_KEY _)) as [e|v1]; cbn [value final events app];
    [reflexivity|].
  destruct (value (recognition API_KEY IMAGE_PATH _ _ _ _ _)) as [e|v2];
    cbn [value final events app]; [|reflexivity].
  rewrite app_nil_r. reflexivity.
Qed.

(** X13: The setup check of line 115 looks at the API key only: with an empty
    key the script raises the setup error before doing anything; with any
    other key it goes on to ask [NET_ADDRESS + "info"], whatever the image
    path is, the empty one included. *)
Theorem setup_check_is_on_the_key IMAGE_PATH NET_ADDRESS API_KEY st :
  let o := main IMAGE_PATH NET_ADDRESS API_KEY st in
  (API_KEY = "" -> value o = inl setup_error /\ events o = [] /\ final o = st) /\
  (API_KEY <> "" ->
   exists answer rest,
     events o = EvHttp (info_get NET_ADDRESS API_KEY) answer :: rest).
Proof.
  cbn zeta. rewrite main_run. split.
  - intros ->. repeat split.
  - intros Hkey. apply String.eqb_neq in Hkey. rewrite Hkey. cbn zeta.
    pose proof (info_events API_KEY
                  {| self := {| server_url := NET_ADDRESS |}; world := world st |})
      as He.
    cbn [self server_url world] in He.
    destruct (value (info API_KEY _)); cbn [events]; rewrite He; cbn [app];
      eexists _, _; reflexivity.
Qed.

(** X14: When [info] fails, the script ends with that exception: [recognition]
    is not called, the script makes no other request than the one GET of
    [info] and prints no more than [info] did. *)
Theorem script_stops_when_info_fails IMAGE_PATH NET_ADDRESS API_KEY st e :
  API_KEY <> "" ->
  let first := info API_KEY {| self := {| server_url := NET_ADDRESS |};
                               world := world st |} in
  value first = inl e ->
  let o := main IMAGE_PATH NET_ADDRESS API_KEY st in
  value o = inl e /\
  events o = events first /\
  forall req answer, In (EvHttp req answer) (events o) ->
                     req = info_get NET_ADDRESS API_KEY.
Proof.
  intros Hkey first Hfirst o. subst o first.
  apply String.eqb_neq in Hkey. rewrite main_run, Hkey. cbn zeta. rewrite Hfirst.
  cbn [value events]. split; [reflexivity|]. split; [reflexivity|].
  intros req answer Hin.
  rewrite info_events in Hin. cbn [self server_url world] in Hin.
  destruct Hin as [H|H]; [inversion H; reflexivity|].
  destruct (snd (http_send os (world st) (info_get NET_ADDRESS API_KEY))) as [e0|r];
    [destruct H|].
  destruct (negb (status_code r =? 200)); [|destruct H].
  destruct H as [H|[]]. discriminate H.
Qed.

(** X15: When both calls return, the script prints the status, the line
    [Recognition:] and the response, in that order and each after the
    requests of the call before it, and ends normally. *)
Theorem script_transcript IMAGE_PATH NET_ADDRESS API_KEY st v1 v2 :
  API_KEY <> "" ->
  let first := info API_KEY {| self := {| server_url := NET_ADDRESS |};
                               world := world st |} in
  let second := recognition API_KEY IMAGE_PATH default_save_image
                  default_save_plate_text default_tasks default_ocr_module_id
                  (final first) in
  value first = inr v1 ->
  value second = inr v2 ->
  let o := main IMAGE_PATH NET_ADDRESS API_KEY st in
  value o = inr tt /\
  events o = (events first ++
              [EvPrint (format_value lib v1); EvPrint "Recognition:"] ++
              events second ++
              [EvPrint (format_value lib v2)])%list.
Proof.
  intros Hkey first second Hfirst Hsecond o. subst o first second.
  apply String.eqb_neq in Hkey. rewrite main_run, Hkey. cbn zeta.
  rewrite Hfirst. cbn zeta. rewrite Hsecond. split; reflexivity.
Qed.

(** X16: The address given to the constructor is the one both calls use: a POST
    made by the script goes to [NET_ADDRESS + "recognition"], the plain
    concatenation, with the key of the script and the default request. *)
Theorem script_posts_to_net_address IMAGE_PATH NET_ADDRESS API_KEY st req answer :
  In (EvHttp req answer) (events (main IMAGE_PATH NET_ADDRESS API_KEY st)) ->
  method req = POST ->
  url req = NET_ADDRESS ++ "recognition" /\
  headers req = [("apiKey", API_KEY)] /\
  data req = [("request",
               json_dumps lib (request_dict (Some false) (Some true)
                                 ["DETECTION"; "OCR"; "MMR"] (Some 801)))] /\
  exists b, files req = [("file", (IMAGE_PATH, b))].
Proof.
  rewrite main_run. destruct (String.eqb API_KEY ""); [intros []|].
  cbn zeta.
  set (st1 := {| self := {| server_url := NET_ADDRESS |}; world := world st |}).
  assert (Hfirst : forall q a, In (EvHttp q a) (events (info API_KEY st1)) ->
                               method q = GET).
  { intros q a Hin. rewrite info_events in Hin. destruct Hin as [H|H].
    - inversion H. reflexivity.
    - destruct (snd (http_send os (world st1) _)) as [e0|r]; [destruct H|].
      destruct (negb (status_code r =? 200)); [|destruct H].
      destruct H as [H|[]]. discriminate H. }
  assert (Hself : self (final (info API_KEY st1)) = {| server_url := NET_ADDRESS |}).
  { rewrite info_run. reflexivity. }
  destruct (value (info API_KEY st1)) as [e|v1]; cbn [events].
  - intros Hin Hm. apply Hfirst in Hin. congruence.
  - intros Hin Hm. apply in_app_or in Hin as [Hin|Hin].
    { apply Hfirst in Hin. congruence. }
    destruct Hin as [H|[H|Hin]]; try discriminate H.
    apply in_app_or in Hin as [Hin|Hin].
    + destruct (post_in_run lib os _ _ _ _ _ _ _ _ _ Hin Hm) as [[b ->] _].
      rewrite Hself. cbn. eauto.
    + destruct (value (recognition _ _ _ _ _ _ _)); [destruct Hin|].
      destruct Hin as [H|[]]. discriminate H.
Qed.

(** *** Encoding the request *)

(** X20: when [json.dumps] raises on the request dictionary at line 94, a
    call that has obtained its image, from a file or by a GET answered
    with status 200, ends with that exception and makes no POST: the image
    is read or fetched and then not sent. *)
Theorem encoding_failure_sends_nothing api_key image_path save_image
    save_plate_text tasks ocr_module_id st e :
  json_dumps_raises lib
    (request_dict save_image save_plate_text tasks ocr_module_id) = Some e ->
  (os_path_isfile os (world st) image_path = true /\
   exists b, read_binary os (world st) image_path = inr b) \/
  (os_path_isfile os (world st) image_path = false /\
   is_valid_url image_path = inr true /\
   exists r, snd (http_send os (world st) (image_get image_path)) = inr r /\
             status_code r = 200) ->
  let o := recognition api_key image_path save_image save_plate_text tasks
             ocr_module_id st in
  value o = inl e /\
  forall req answer, In (EvHttp req answer) (events o) ->
                     req = image_get image_path.
Proof.
  intros Hj [[Hf [b Hr]]|(Hf & Hv & r & Hg & Hs)]; cbn zeta;
    rewrite recognition_run, Hf.
  - rewrite Hr. unfold submit. rewrite Hj. split; [reflexivity|].
    intros req answer [].
  - rewrite Hv. cbn zeta. rewrite Hg, Hs. cbn [Z.eqb Pos.eqb].
    unfold submit. rewrite Hj. split; [reflexivity|].
    intros req answer [H|[]]. inversion H. reflexivity.
Qed.

End Coverage.

(** X17: For an existing file the URL functions are not consulted: the run is
    the same whatever [unquote] and [urlparse] do, also when [urlparse]
    would reject the file name. *)
Theorem local_file_skips_url_functions {World : Type} (lib : PyLib)
    (os : Platform World) api_key image_path save_image save_plate_text tasks
    ocr_module_id (st : state World) decode parse :
  os_path_isfile os (world st) image_path = true ->
  recognition (with_url_functions lib decode parse) os api_key image_path
    save_image save_plate_text tasks ocr_module_id st =
  recognition lib os api_key image_path save_image save_plate_text tasks
    ocr_module_id st.
Proof.
  intros Hf. rewrite !recognition_run, Hf. reflexivity.
Qed.

(** ** Reading the status back from an error message *)

Lemma str_int_inj a b : str_int a = str_int b -> a = b.
Proof.
  unfold str_int. intros H. apply DecimalZ.to_int_inj.
  assert (Hnil : forall z, Z.to_int z <> Pos Nil /\ Z.to_int z <> Neg Nil).
  { intros [|p|p]; cbn; split; try discriminate;
      intros [= Hp]; exact (DecimalPos.Unsigned.to_uint_nonnil p Hp). }
  assert (Some (Z.to_int a) = Some (Z.to_int b)) as [= ->]; [|reflexivity].
  rewrite <- (NilZero.isi (Z.to_int a)), <- (NilZero.isi (Z.to_int b)), H;
    try apply Hnil.
  reflexivity.
Qed.

Lemma digits_no_space d : Ref.contains_char 32 (NilEmpty.string_of_uint d) = false.
Proof. induction d; cbn; auto. Qed.

Lemma str_int_no_space z : Ref.contains_char 32 (str_int z) = false.
Proof.
  unfold str_int.
  destruct (Z.to_int z) as [d|d]; cbn; (destruct d; [reflexivity|..]);
    apply (digits_no_space (_ _)).
Qed.

(** Two texts cut at their first space. *)
Lemma split_at_space s1 s2 t1 t2 :
  Ref.contains_char 32 s1 = false ->
  Ref.contains_char 32 s2 = false ->
  (s1 ++ String " " t1 = s2 ++ String " " t2)%string ->
  s1 = s2 /\ t1 = t2.
Proof.
  revert s2. induction s1 as [|c s1 IH]; intros [|c2 s2]; cbn.
  - intros _ _ [= ->]. auto.
  - intros _ H2 [= <- _]. discriminate H2.
  - intros H1 _ [= -> _]. discriminate H1.
  - intros H1 H2 [= -> H].
    apply orb_false_iff in H1 as [_ H1]. apply orb_false_iff in H2 as [_ H2].
    destruct (IH s2 H1 H2 H) as [-> ->]. auto.
Qed.

(** X18: The error of [info] tells the status code: answers with different
    status codes raise different errors. *)
Theorem info_error_tells_status a b :
  info_error a = info_error b -> a = b.
Proof.
  unfold info_error. intros [= H].
  apply str_int_inj. exact H.
Qed.

(** X19: The server error of [recognition] tells both the status code and the
    detail: the message can be cut back into the two without ambiguity. *)
Theorem server_error_tells_status_and_detail a b d1 d2 :
  server_error a d1 = server_error b d2 -> a = b /\ d1 = d2.
Proof.
  unfold server_error. intros [= H].
  apply split_at_space in H as [Hs Hd]; try apply str_int_no_space.
  split; [apply str_int_inj, Hs|].
  injection Hd as Hd. exact Hd.
Qed.

(** ** The further facts on concrete inputs *)

(** [info] on a 200 answer that is an HTML page. *)
Lemma info_raises_only_witness :
  let st := client_in (with_file (response 200 "OK" "<html>") picture) in
  let answer := snd (http_send simulated (world st)
                       (info_get (server_url (self st)) "key")) in
  answer = inl JSONDecodeError \/
  (exists r, answer = inr r /\ status_code r <> 200 /\
             JSONDecodeError = info_error (status_code r)) \/
  (exists r, answer = inr r /\ status_code r = 200 /\
             decode_utf8 reference (content r) = inl JSONDecodeError) \/
  (exists r body, answer = inr r /\ status_code r = 200 /\
                  decode_utf8 reference (content r) = inr body /\
                  json_loads reference body = inl JSONDecodeError).
Proof.
  apply (info_raises_only reference simulated "key"
           (client_in (with_file (response 200 "OK" "<html>") picture))
           JSONDecodeError).
  reflexivity.
Defined.

Lemma api_key_sent_to_server_only_witness :
  timeout (image_get escaped_url) = 60 /\
  match method (image_get escaped_url) with
  | GET => url (image_get escaped_url) = escaped_url /\
           headers (image_get escaped_url) = [] /\
           data (image_get escaped_url) = [] /\
           files (image_get escaped_url) = []
  | POST => url (image_get escaped_url) =
              server_url (self (client_in (without_file picture unauthorized)))
              ++ "recognition" /\
            headers (image_get escaped_url) = [("apiKey", "key")]
  end.
Proof.
  apply (api_key_sent_to_server_only reference simulated "key" escaped_url
           default_save_image default_save_plate_text default_tasks
           default_ocr_module_id (client_in (without_file picture unauthorized))
           (image_get escaped_url) (inr picture)).
  left. reflexivity.
Defined.

Lemma fetched_image_forwarded_witness :
  exists req,
    events (recognition reference simulated "key" escaped_url default_save_image
              default_save_plate_text default_tasks default_ocr_module_id
              (client_in (without_file picture unauthorized))) =
      [EvHttp (image_get escaped_url) (inr picture);
       EvHttp req (snd (http_send simulated (without_file picture unauthorized) req))] /\
    method req = POST /\
    files req = [("file", (escaped_url, content picture))].
Proof.
  apply (fetched_image_forwarded reference simulated "key" escaped_url
           default_save_image default_save_plate_text default_tasks
           default_ocr_module_id (client_in (without_file picture unauthorized))
           (without_file picture unauthorized) picture).
  - reflexivity.
  - reflexivity.
  - reflexivity.
  - reflexivity.
  - reflexivity.
Defined.

(** A file that is listed but cannot be read. *)
Lemma image_failure_propagates_witness :
  let st := client_in {| sim_files := [("locked.jpg", inl OSError)];
                         sim_server := by_method picture picture |} in
  let o := recognition reference simulated "key" "locked.jpg" default_save_image
             default_save_plate_text default_tasks default_ocr_module_id st in
  value o = inl OSError /\
  forall req answer, In (EvHttp req answer) (events o) -> method req = GET.
Proof.
  apply (image_failure_propagates reference simulated "key" "locked.jpg"
           default_save_image default_save_plate_text default_tasks
           default_ocr_module_id
           (client_in {| sim_files := [("locked.jpg", inl OSError)];
                         sim_server := by_method picture picture |})
           OSError).
  left. split; reflexivity.
Defined.

(** An error object whose [errorMessage] is a number. *)
Lemma error_detail_from_object_witness :
  let body := "{" ++ quoted "errorMessage" ++ ": 42}" in
  value (recognition reference simulated "key" "car.jpg" default_save_image
           default_save_plate_text default_tasks default_ocr_module_id
           (client_in (with_file picture (response 400 "Bad Request" body)))) =
  inl (server_error 400 "42").
Proof.
  apply (error_detail_from_object reference simulated "key" "car.jpg"
           default_save_image default_save_plate_text default_tasks
           default_ocr_module_id
           (client_in (with_file picture
                         (response 400 "Bad Request"
                            ("{" ++ quoted "errorMessage" ++ ": 42}"))))
           default_post
           (response 400 "Bad Request" ("{" ++ quoted "errorMessage" ++ ": 42}"))
           [("errorMessage", PyInt 42)]).
  - left. reflexivity.
  - reflexivity.
  - discriminate.
  - discriminate.
  - reflexivity.
Defined.

(** The body [null]. *)
Lemma scalar_error_body_raises_type_error_witness :
  value (recognition reference simulated "key" "car.jpg" default_save_image
           default_save_plate_text default_tasks default_ocr_module_id
           (client_in (with_file picture
                         (response 500 "Internal Server Error" "null")))) =
  inl TypeError.
Proof.
  apply (scalar_error_body_raises_type_error reference simulated "key" "car.jpg"
           default_save_image default_save_plate_text default_tasks
           default_ocr_module_id
           (client_in (with_file picture
                         (response 500 "Internal Server Error" "null")))
           default_post (response 500 "Internal Server Error" "null") PyNone).
  - left. reflexivity.
  - reflexivity.
  - discriminate.
  - discriminate.
  - reflexivity.
  - left. reflexivity.
Defined.

(** A body that is one JSON string with the word in it. *)
Lemma string_error_body_witness :
  let body := quoted "errorMessage: key expired" in
  value (recognition reference simulated "key" "car.jpg" default_save_image
           default_save_plate_text default_tasks default_ocr_module_id
           (client_in (with_file picture (response 403 "Forbidden" body)))) =
  if occurs "errorMessage" "errorMessage: key expired" then inl TypeError
  else inl (server_error 403 "Forbidden").
Proof.
  apply (string_error_body reference simulated "key" "car.jpg"
           default_save_image default_save_plate_text default_tasks
           default_ocr_module_id
           (client_in (with_file picture
                         (response 403 "Forbidden"
                            (quoted "errorMessage: key expired"))))
           default_post
           (response 403 "Forbidden" (quoted "errorMessage: key expired"))
           "errorMessage: key expired").
  - left. reflexivity.
  - reflexivity.
  - discriminate.
  - discriminate.
  - reflexivity.
Defined.

(** A body that is an array of messages. *)
Lemma array_error_body_witness :
  let body := "[" ++ quoted "key expired" ++ "]" in
  value (recognition reference simulated "key" "car.jpg" default_save_image
           default_save_plate_text default_tasks default_ocr_module_id
           (client_in (with_file picture (response 403 "Forbidden" body)))) =
  if existsb (is_str "errorMessage") [PyStr "key expired"] then inl TypeError
  else inl (server_error 403 "Forbidden").
Proof.
  apply (array_error_body reference simulated "key" "car.jpg"
           default_save_image default_save_plate_text default_tasks
           default_ocr_module_id
           (client_in (with_file picture
                         (response 403 "Forbidden"
                            ("[" ++ quoted "key expired" ++ "]"))))
           default_post
           (response 403 "Forbidden" ("[" ++ quoted "key expired" ++ "]"))
           [PyStr "key expired"]).
  - left. reflexivity.
  - reflexivity.
  - discriminate.
  - discriminate.
  - reflexivity.
Defined.

(** The script with an empty image path and a server that is down. *)
Lemma script_stops_when_info_fails_witness :
  let w := with_file (response 503 "Service Unavailable" "") picture in
  let o := main reference simulated "" "https://trafficeye.ai/" "key" (client_in w) in
  value o = inl (info_error 503) /\
  events o = events (info reference simulated "key"
                       {| self := {| server_url := "https://trafficeye.ai/" |};
                          world := w |}) /\
  forall req answer, In (EvHttp req answer) (events o) ->
                     req = info_get "https://trafficeye.ai/" "key".
Proof.
  apply (script_stops_when_info_fails reference simulated ""
           "https://trafficeye.ai/" "key"
           (client_in (with_file (response 503 "Service Unavailable" "") picture))
           (info_error 503)).
  - discriminate.
  - reflexivity.
Defined.

(** The script on [car.jpg], with a server that answers both calls. *)
Lemma script_transcript_witness :
  let ok := response 200 "OK" status_ok_body in
  let st := {| self := {| server_url := "https://trafficeye.ai/" |};
               world := with_file ok ok |} in
  let o := main reference simulated "car.jpg" "https://trafficeye.ai/" "key"
             (client_in (with_file ok ok)) in
  value o = inr tt /\
  events o =
    (events (info reference simulated "key" st) ++
     [EvPrint (format_value reference (PyDict [("status", PyStr "ok")]));
      EvPrint "Recognition:"] ++
     events (recognition reference simulated "key" "car.jpg" default_save_image
               default_save_plate_text default_tasks default_ocr_module_id
               (final (info reference simulated "key" st))) ++
     [EvPrint (format_value reference (PyDict [("status", PyStr "ok")]))])%list.
Proof.
  apply (script_transcript reference simulated "car.jpg" "https://trafficeye.ai/"
           "key"
           (client_in (with_file (response 200 "OK" status_ok_body)
                         (response 200 "OK" status_ok_body)))
           (PyDict [("status", PyStr "ok")]) (PyDict [("status", PyStr "ok")])).
  - discriminate.
  - reflexivity.
  - reflexivity.
Defined.

Lemma script_posts_to_net_address_witness :
  url default_post = "https://trafficeye.ai/" ++ "recognition" /\
  headers default_post = [("apiKey", "key")] /\
  data default_post =
    [("request",
      json_dumps reference (request_dict (Some false) (Some true)
                              ["DETECTION"; "OCR"; "MMR"] (Some 801)))] /\
  exists b, files default_post = [("file", ("car.jpg", b))].
Proof.
  apply (script_posts_to_net_address reference simulated "car.jpg"
           "https://trafficeye.ai/" "key"
           (client_in (with_file (response 200 "OK" status_ok_body) unauthorized))
           default_post (inr unauthorized)).
  - right. right. right. left. reflexivity.
  - reflexivity.
Defined.

(** An existing file under a URL parser that rejects everything. *)
Lemma local_file_skips_url_functions_witness :
  recognition (with_url_functions reference (fun s => s) (fun _ => inl TypeError))
    simulated "key" "car.jpg" default_save_image default_save_plate_text
    default_tasks default_ocr_module_id (client_in (with_file picture unauthorized)) =
  recognition reference simulated "key" "car.jpg" default_save_image
    default_save_plate_text default_tasks default_ocr_module_id
    (client_in (with_file picture unauthorized)).
Proof.
  apply (local_file_skips_url_functions reference simulated "key" "car.jpg"
           default_save_image default_save_plate_text default_tasks
           default_ocr_module_id (client_in (with_file picture unauthorized))
           (fun s => s) (fun _ => inl TypeError)).
  reflexivity.
Defined.

Lemma info_error_tells_status_witness :
  status_code not_found = 404.
Proof.
  apply (info_error_tells_status (status_code not_found) 404).
  reflexivity.
Defined.

Lemma server_error_tells_status_and_detail_witness :
  status_code unauthorized = 401 /\ "bad key" = "bad key".
Proof.
  apply (server_error_tells_status_and_detail (status_code unauthorized) 401
           "bad key" "bad key").
  reflexivity.
Defined.

Lemma info_returns_iff_witness :
  value (info reference simulated "key"
           (client_in (with_file (response 200 "OK" status_ok_body) picture))) =
  inr (PyDict [("status", PyStr "ok")]).
Proof.
  apply (proj2 (info_returns_iff reference simulated "key"
                  (client_in (with_file (response 200 "OK" status_ok_body) picture))
                  (PyDict [("status", PyStr "ok")]))).
  exists (response 200 "OK" status_ok_body), status_ok_body.
  repeat split.
Defined.

(** A 200 answer whose body has an [errorMessage] is a result all the same. *)
Lemma recognition_returns_iff_witness :
  value (recognition reference simulated "key" "car.jpg" default_save_image
           default_save_plate_text default_tasks default_ocr_module_id
           (client_in (with_file picture (response 200 "OK" bad_key_body)))) =
  inr (PyDict [("errorMessage", PyStr "bad key")]).
Proof.
  apply (proj2 (recognition_returns_iff reference simulated "key" "car.jpg"
                  default_save_image default_save_plate_text default_tasks
                  default_ocr_module_id
                  (client_in (with_file picture (response 200 "OK" bad_key_body)))
                  (PyDict [("errorMessage", PyStr "bad key")]))).
  exists default_post, (response 200 "OK" bad_key_body), bad_key_body.
  split; [left; reflexivity|]. repeat split.
Defined.

(** The script with an empty image path and a key. *)
Lemma setup_check_is_on_the_key_witness :
  exists answer rest,
    events (main reference simulated "" "https://trafficeye.ai/" "key"
              (client_in (with_file not_found picture))) =
    EvHttp (info_get "https://trafficeye.ai/" "key") answer :: rest.
Proof.
  apply (proj2 (setup_check_is_on_the_key reference simulated ""
                  "https://trafficeye.ai/" "key"
                  (client_in (with_file not_found picture)))).
  discriminate.
Defined.

(** The file [car.jpg] with an OCR module id too long to be encoded. *)
Lemma encoding_failure_sends_nothing_witness :
  let o := recognition reference simulated "key" "car.jpg" default_save_image
             default_save_plate_text default_tasks (Some huge_module_id)
             (client_in (with_file picture picture)) in
  value o = inl (ValueError "Exceeds the limit (4300 digits) for integer string conversion; use sys.set_int_max_str_digits() to increase the limit") /\
  forall req answer, In (EvHttp req answer) (events o) ->
                     req = image_get "car.jpg".
Proof.
  apply (encoding_failure_sends_nothing reference simulated "key" "car.jpg"
           default_save_image default_save_plate_text default_tasks
           (Some huge_module_id) (client_in (with_file picture picture))).
  - vm_compute. reflexivity.
  - left. split; [reflexivity|]. exists car_jpg. reflexivity.
Defined.
